(** * The GitHub event-context normaliser of pixee-actions

    A shallow embedding of [src/github.ts]: the dispatch of
    [getGitHubContext] over the event name, the two payload handlers
    [getPullRequestContext] and [getCheckRunContext], the manual-dispatch
    resolution [getWorkflowDispatchContext], and the merge with
    [getRepositoryInfo].

    The source is TypeScript: its types are erased when it runs, so the
    payload is modelled as the untyped JavaScript value it is, property
    reads follow the rules of the language (a read on [undefined] or [null]
    throws a TypeError, [?.] short-circuits on them), and the value the
    function resolves to is a JavaScript object with an ordered list of own
    properties, so that "the field is absent" and "the field holds
    [undefined]" are different things, as they are in the program. *)

From Stdlib Require Import String Ascii List ZArith Bool Lia.
From Stdlib Require Import DecimalString.
Import ListNotations.
Local Open Scope string_scope.
Local Open Scope list_scope.
Set Warnings "-register-all".

(** ** JavaScript values *)

Module Js.

(** The values the normaliser can meet: what [JSON.parse] produces for the
    webhook payload, [undefined] for a missing property, [NaN] (a result of
    [parseInt]) and function values (the entries of the handler table).
    Numbers are the integral ones; a string is its sequence of code units. *)
Inductive value : Type :=
| Undefined
| Null
| Bool (b : bool)
| Num (n : Z)
| NaN
| Str (s : string)
| Arr (elems : list value)
| Obj (props : list (string * value))
| Fun (name : string).

(** What a [throw] carries: the TypeError of the language itself, or the
    error a collaborator raised or rejected with. *)
Inductive error : Type :=
| TypeError
| Raised (msg : string).

(** A computation that returns or throws. *)
Inductive result (A : Type) : Type :=
| Ok (a : A)
| Throw (e : error).
Arguments Ok {A} a.
Arguments Throw {A} e.

Definition bindR {A B} (r : result A) (k : A -> result B) : result B :=
  match r with
  | Ok a => k a
  | Throw e => Throw e
  end.

Definition nullish (v : value) : bool :=
  match v with
  | Undefined | Null => true
  | _ => false
  end.

(** Own properties of an object literal, in insertion order. *)
Fixpoint lookup (k : string) (props : list (string * value)) : option value :=
  match props with
  | [] => None
  | (k', v) :: rest => if String.eqb k k' then Some v else lookup k rest
  end.

(** [obj[k] = v]: overwrite in place when the key exists, append otherwise. *)
Fixpoint set (k : string) (v : value) (props : list (string * value))
  : list (string * value) :=
  match props with
  | [] => [(k, v)]
  | (k', v') :: rest =>
      if String.eqb k k' then (k', v) :: rest else (k', v') :: set k v rest
  end.

Definition keyOfIndex (i : nat) : string :=
  NilEmpty.string_of_uint (Nat.to_uint i).

(** The array index a property key denotes, when it is a canonical one. *)
Definition indexOfKey (k : string) : option nat :=
  match NilEmpty.uint_of_string k with
  | Some u =>
      let i := Nat.of_uint u in
      if String.eqb (keyOfIndex i) k then Some i else None
  | None => None
  end.

Fixpoint charAt (i : nat) (s : string) : value :=
  match s, i with
  | EmptyString, _ => Undefined
  | String c _, O => Str (String c EmptyString)
  | String _ s', S i' => charAt i' s'
  end.

(** [v.k] and [v[k]] for the keys the source reads ([pull_request], [head],
    [sha], [check_run], [pull_requests], [0], [number], [head_sha], [data]):
    none of them is defined on a built-in prototype, so on an object the
    read is the own property or [undefined], on an array or a string an
    index read, on any other value but [undefined] and [null] it is
    [undefined]; on those two it throws. *)
Definition getProp (v : value) (k : string) : result value :=
  match v with
  | Undefined | Null => Throw TypeError
  | Obj props =>
      Ok (match lookup k props with Some x => x | None => Undefined end)
  | Arr elems =>
      Ok (match indexOfKey k with
          | Some i => nth i elems Undefined
          | None => Undefined
          end)
  | Str s =>
      Ok (match indexOfKey k with
          | Some i => charAt i s
          | None => Undefined
          end)
  | Bool _ | Num _ | NaN | Fun _ => Ok Undefined
  end.

(** [v?.rest]: the whole rest of the chain is skipped when [v] is
    [undefined] or [null]. *)
Definition optChain (v : value) (rest : value -> result value) : result value :=
  if nullish v then Ok Undefined else rest v.

Fixpoint indexed {A} (i : nat) (xs : list A) : list (string * A) :=
  match xs with
  | [] => []
  | x :: xs' => (keyOfIndex i, x) :: indexed (S i) xs'
  end.

Fixpoint chars (s : string) : list value :=
  match s with
  | EmptyString => []
  | String c s' => Str (String c EmptyString) :: chars s'
  end.

(** The own enumerable properties that [...v] copies. *)
Definition ownEnumerable (v : value) : list (string * value) :=
  match v with
  | Obj props => props
  | Arr elems => indexed 0 elems
  | Str s => indexed 0 (chars s)
  | Undefined | Null | Bool _ | Num _ | NaN | Fun _ => []
  end.

Definition assign (target source : list (string * value))
  : list (string * value) :=
  fold_left (fun acc kv => set (fst kv) (snd kv) acc) source target.

(** The object literal [{...a, ...b}]. *)
Definition spread2 (a b : value) : value :=
  Obj (assign (assign [] (ownEnumerable a)) (ownEnumerable b)).

(** [s.substring(start)]: the code units of [s] from position [start] on,
    the empty string when [s] is no longer than that. *)
Fixpoint substring (start : nat) (s : string) : string :=
  match start, s with
  | O, _ => s
  | S _, EmptyString => EmptyString
  | S n, String _ s' => substring n s'
  end.

(** [xs.includes(x)] on an array of strings. *)
Definition includes (xs : list string) (x : string) : bool :=
  existsb (String.eqb x) xs.

Definition isNonEmptyString (v : value) : bool :=
  match v with
  | Str s => negb (String.eqb s "")
  | _ => false
  end.

End Js.

Import Js.

(** ** The trigger context and the collaborators

    [github.context] of [@actions/github], [core.getInput] of
    [@actions/core], the Octokit client and the built-in [parseInt] are not
    code of this repository: the normaliser is modelled over what they hand
    to it. *)

Module RepositoryInfo.

Record t : Type := { owner : string; repo : string }.

(** The object literal [{ owner, repo }]. *)
Definition toValue (r : t) : value :=
  Obj [("owner", Str (owner r)); ("repo", Str (repo r))].

End RepositoryInfo.

Module Context.

(** The part of [Context] the normaliser reads. [repo] and [issue] are
    accessors of the class (so they are no own properties), taken here with
    the values they yield; [others] stands for the remaining own properties
    of the instance ([workflow], [action], [actor], ...), which only matter
    when the whole context is copied. *)
Record t : Type := {
  eventName : string;
  payload : list (string * value);
  repo : RepositoryInfo.t;
  issue_number : value;            (* context.issue.number *)
  ref : string;
  sha : string;
  others : list (string * value)
}.

Definition toValue (c : t) : value :=
  Obj (("payload", Obj (payload c)) :: ("eventName", Str (eventName c))
       :: ("sha", Str (sha c)) :: ("ref", Str (ref c)) :: others c).

End Context.

(** The argument of [rest.pulls.get]. *)
Record PullsGetParams : Type := {
  pg_owner : string;
  pg_repo : string;
  pull_number : value
}.

(** An authenticated client: what its get-pull-request endpoint answers
    (resolves with) or fails with (rejects). *)
Record Octokit : Type := {
  pulls_get : PullsGetParams -> result value
}.

Record World : Type := {
  getInput : string -> string;                (* core.getInput *)
  parseInt : string -> value;                 (* the built-in *)
  getOctokit : string -> result Octokit       (* github.getOctokit *)
}.

(** ** Asynchronous computations

    An [async] function either resolves or rejects, and on the way it may
    call the platform API: the calls made so far are threaded through, and
    kept when the computation rejects. *)

Definition Async (A : Type) : Type :=
  list PullsGetParams -> result A * list PullsGetParams.

Definition ret {A} (a : A) : Async A := fun calls => (Ok a, calls).

Definition bind {A B} (m : Async A) (k : A -> Async B) : Async B :=
  fun calls =>
    match m calls with
    | (Ok a, calls') => k a calls'
    | (Throw e, calls') => (Throw e, calls')
    end.

(** A synchronous step inside an asynchronous function. *)
Definition sync {A} (r : result A) : Async A := fun calls => (r, calls).

(** One request to the get-pull-request endpoint. *)
Definition request (client : Octokit) (params : PullsGetParams) : Async value :=
  fun calls => (pulls_get client params, calls ++ [params]).

Declare Scope js_scope.
Delimit Scope js_scope with js.
Notation "'let*' x := r 'in' k" := (bindR r (fun x => k))
  (at level 10, x name, r at level 100, k at level 200) : js_scope.
Notation "'await' x := m 'in' k" := (bind m (fun x => k))
  (at level 10, x name, m at level 100, k at level 200) : js_scope.
Local Open Scope js_scope.

(** ** The normaliser *)

(** [getRepositoryInfo()]: owner and repo of the ambient context (the
    source reads the global [github.context], the one [getGitHubContext]
    works on). *)
Definition getRepositoryInfo (context : Context.t) : RepositoryInfo.t :=
  {| RepositoryInfo.owner := RepositoryInfo.owner (Context.repo context);
     RepositoryInfo.repo := RepositoryInfo.repo (Context.repo context) |}.

Definition getPullRequestContext (context : Context.t) : result value :=
  let prNumber := Context.issue_number context in
  let* pull_request := getProp (Obj (Context.payload context)) "pull_request" in
  let* sha :=
    optChain pull_request (fun pr =>
      let* head := getProp pr "head" in
      getProp head "sha") in
  Ok (Obj [("prNumber", prNumber); ("sha", sha)]).

Definition getCheckRunContext (context : Context.t) : result value :=
  let* actionEvent := getProp (Obj (Context.payload context)) "check_run" in
  let* pull_requests := getProp actionEvent "pull_requests" in
  let* prNumber :=
    optChain pull_requests (fun prs =>
      let* first := getProp prs "0" in
      optChain first (fun pr => getProp pr "number")) in
  let* sha := getProp actionEvent "head_sha" in
  Ok (Obj [("prNumber", prNumber); ("sha", sha)]).

Definition allowedBranches : list string := ["main"; "develop"].

Definition branchName (context : Context.t) : string :=
  substring (String.length "refs/heads/") (Context.ref context).

Definition getWorkflowDispatchContext (w : World) (context : Context.t)
  : Async value :=
  if includes allowedBranches (branchName context) then
    let token := getInput w "token" in
    let prNumber := getInput w "pr-number" in
    let info := getRepositoryInfo context in
    await client := sync (getOctokit w token) in
    await response :=
      request client
        {| pg_owner := RepositoryInfo.owner info;
           pg_repo := RepositoryInfo.repo info;
           pull_number := parseInt w prNumber |} in
    sync (let* data := getProp response "data" in
          let* head := getProp data "head" in
          let* sha := getProp head "sha" in
          Ok (Obj [("sha", sha)]))
  else
    ret (Obj [("sha", Str (Context.sha context))]).

(** What a plain object such as the handler table inherits. The table is an
    object literal, so a read [eventHandlers[name]] that finds no own
    property goes on to [Object.prototype]. *)
Module ObjectPrototype.

Inductive member : Type :=
| Constructor
| ToString
| ToLocaleString
| ValueOf
| HasOwnProperty
| IsPrototypeOf
| PropertyIsEnumerable
| DefineGetter
| DefineSetter
| LookupGetter
| LookupSetter
| Proto.

Definition members : list (string * member) :=
  [("constructor", Constructor); ("toString", ToString);
   ("toLocaleString", ToLocaleString); ("valueOf", ValueOf);
   ("hasOwnProperty", HasOwnProperty); ("isPrototypeOf", IsPrototypeOf);
   ("propertyIsEnumerable", PropertyIsEnumerable);
   ("__defineGetter__", DefineGetter); ("__defineSetter__", DefineSetter);
   ("__lookupGetter__", LookupGetter); ("__lookupSetter__", LookupSetter);
   ("__proto__", Proto)].

Fixpoint find {A} (k : string) (table : list (string * A)) : option A :=
  match table with
  | [] => None
  | (k', a) :: rest => if String.eqb k k' then Some a else find k rest
  end.

Definition named (k : string) : option member := find k members.

(** [this[name](arg)] for a plain object [this] with none of these members
    overridden and an object [arg] whose string form is no key of [this]:
    [Object(arg)] is [arg]; the string form of a plain object is fixed;
    [valueOf] is [this]; the three tests answer [false]; defining an
    accessor without a function throws; the accessor lookups find nothing;
    [__proto__] reads as an object, which cannot be called. *)
Definition call (m : member) (this arg : value) : result value :=
  match m with
  | Constructor => Ok arg
  | ToString | ToLocaleString => Ok (Str "[object Object]")
  | ValueOf => Ok this
  | HasOwnProperty | IsPrototypeOf | PropertyIsEnumerable => Ok (Bool false)
  | DefineGetter | DefineSetter => Throw TypeError
  | LookupGetter | LookupSetter => Ok Undefined
  | Proto => Throw TypeError
  end.

End ObjectPrototype.

(** The dispatch table: [check_run] and [pull_request]. *)
Definition eventHandlers : list (string * (Context.t -> result value)) :=
  [("check_run", getCheckRunContext);
   ("pull_request", getPullRequestContext)].

(** The table as the value it is when it is handed around. *)
Definition eventHandlersValue : value :=
  Obj [("check_run", Fun "getCheckRunContext");
       ("pull_request", Fun "getPullRequestContext")].

(** [eventHandlers[eventName](context)]: an own entry is the handler; else
    an inherited member is what the read yields; else the read yields
    [undefined], and calling that throws a TypeError. *)
Definition callEventHandler (eventName : string) (context : Context.t)
  : result value :=
  match ObjectPrototype.find eventName eventHandlers with
  | Some handler => handler context
  | None =>
      match ObjectPrototype.named eventName with
      | Some m =>
          ObjectPrototype.call m eventHandlersValue (Context.toValue context)
      | None => Throw TypeError
      end
  end.

Definition getGitHubContext (w : World) (context : Context.t) : Async value :=
  let eventName := Context.eventName context in
  await commitInfo :=
    (if negb (String.eqb eventName "workflow_dispatch")
     then sync (callEventHandler eventName context)
     else getWorkflowDispatchContext w context) in
  ret (spread2 (RepositoryInfo.toValue (getRepositoryInfo context)) commitInfo).

(** ** Reading a result *)

(** The own property [k] of the value a run resolved to; [None] when the
    value has no such property. *)
Definition field (k : string) (v : value) : option value :=
  lookup k (ownEnumerable v).

(** The event kinds with a handler of their own. *)
Definition supported (eventName : string) : bool :=
  String.eqb eventName "pull_request" || String.eqb eventName "check_run"
  || String.eqb eventName "workflow_dispatch".

(** The value at a path of properties, [undefined] where the path breaks
    off: what a chain of reads finds when none of them throws. *)
Fixpoint dig (v : value) (path : list string) : value :=
  match path with
  | [] => v
  | k :: rest =>
      match getProp v k with
      | Ok x => dig x rest
      | Throw _ => Undefined
      end
  end.

Definition isPositiveInteger (v : value) : bool :=
  match v with
  | Num n => (0 <? n)%Z
  | _ => false
  end.

(** The merged record, spelled out. *)
Definition merged (ctx : Context.t) (rest : list (string * value)) : value :=
  Obj (("owner", Str (RepositoryInfo.owner (Context.repo ctx)))
       :: ("repo", Str (RepositoryInfo.repo (Context.repo ctx))) :: rest).

(** The pull_request field of the payload as the handler reads it. *)
Definition pullRequestOf (ctx : Context.t) : value :=
  match lookup "pull_request" (Context.payload ctx) with
  | Some pr => pr
  | None => Undefined
  end.

(** The argument the source builds for the get-pull-request call. *)
Definition pullsGetArgument (w : World) (ctx : Context.t) : PullsGetParams :=
  {| pg_owner := RepositoryInfo.owner (Context.repo ctx);
     pg_repo := RepositoryInfo.repo (Context.repo ctx);
     pull_number := parseInt w (getInput w "pr-number") |}.

(** What the handlers build: an object with sha, preceded or not by
    prNumber, and nothing else. *)
Inductive PullRequestInfo : value -> Prop :=
| WithNumber prNumber sha :
    PullRequestInfo (Obj [("prNumber", prNumber); ("sha", sha)])
| ShaOnly sha :
    PullRequestInfo (Obj [("sha", sha)]).

(** ** A concrete world for the examples *)

Fixpoint digits (s : string) (acc : option Z) : option Z :=
  match s with
  | EmptyString => acc
  | String c s' =>
      let n := nat_of_ascii c in
      if (48 <=? n)%nat && (n <=? 57)%nat then
        digits s' (Some (10 * match acc with Some a => a | None => 0 end
                         + Z.of_nat (n - 48))%Z)
      else acc
  end.

(** [parseInt] on a string that starts with decimal digits (and not with
    [0x]) or with no numeral at all: the leading digits in base ten, [NaN]
    without one. *)
Definition parseDecimal (s : string) : value :=
  match digits s None with
  | Some n => Num n
  | None => NaN
  end.

Definition pullRequest17 : value :=
  Obj [("data", Obj [("number", Num 17);
                     ("head", Obj [("ref", Str "fix"); ("sha", Str "9f8e7d")])])].

(** Inputs [token] and [pr-number] are set; the client needs a token and
    knows pull request 17 only. *)
Definition world : World :=
  {| getInput := fun name =>
       if String.eqb name "token" then "ghs_token"
       else if String.eqb name "pr-number" then "17" else "";
     parseInt := parseDecimal;
     getOctokit := fun token =>
       if String.eqb token "" then
         Throw (Raised "Parameter token or opts.auth is required")
       else
         Ok {| pulls_get := fun params =>
                 match pull_number params with
                 | Num 17 => Ok pullRequest17
                 | _ => Throw (Raised "Not Found")
                 end |} |}.

Definition acme : RepositoryInfo.t :=
  {| RepositoryInfo.owner := "acme"; RepositoryInfo.repo := "widgets" |}.

Definition event (name : string) (payload : list (string * value))
  (number : value) (ref : string) : Context.t :=
  {| Context.eventName := name;
     Context.payload := payload;
     Context.repo := acme;
     Context.issue_number := number;
     Context.ref := ref;
     Context.sha := "0a1b2c";
     Context.others := [("workflow", Str "pixee"); ("actor", Str "octocat")] |}.

Definition pullRequest42 : Context.t :=
  event "pull_request"
    [("action", Str "opened"); ("number", Num 42);
     ("pull_request",
      Obj [("number", Num 42);
           ("head", Obj [("ref", Str "fix"); ("sha", Str "abc123")])])]
    (Num 42) "refs/pull/42/merge".

Definition pullRequestNoHead : Context.t :=
  event "pull_request"
    [("action", Str "opened"); ("pull_request", Obj [("number", Num 42)])]
    (Num 42) "refs/pull/42/merge".

Definition pullRequestNoField : Context.t :=
  event "pull_request" [("action", Str "opened"); ("number", Num 42)]
    (Num 42) "refs/pull/42/merge".

Definition checkRun (pull_requests : list value) : Context.t :=
  event "check_run"
    [("action", Str "completed");
     ("check_run",
      Obj [("name", Str "SonarCloud Code Analysis");
           ("head_sha", Str "def456");
           ("pull_requests", Arr pull_requests)])]
    Undefined "refs/heads/main".

(** The world of the examples without a token input. *)
Definition worldWithoutToken : World :=
  {| getInput := fun name => if String.eqb name "pr-number" then "17" else "";
     parseInt := parseInt world;
     getOctokit := getOctokit world |}.

(** The world of the examples with a pr-number input that names no pull
    request. *)
Definition worldWithUnknownNumber : World :=
  {| getInput := fun name =>
       if String.eqb name "token" then "ghs_token"
       else if String.eqb name "pr-number" then "404" else "";
     parseInt := parseInt world;
     getOctokit := getOctokit world |}.

(** The world of the examples with an API that answers with empty data. *)
Definition worldWithEmptyAnswer : World :=
  {| getInput := getInput world;
     parseInt := parseInt world;
     getOctokit := fun _ =>
       Ok {| pulls_get := fun _ => Ok (Obj [("data", Obj [])]) |} |}.

(** ** The branch name in the words of the specification *)


(** ** The rest of the normaliser's handlers, read as values *)

(** The check_run field of the payload as the handler reads it. *)
Definition checkRunOf (ctx : Context.t) : value :=
  match lookup "check_run" (Context.payload ctx) with
  | Some cr => cr
  | None => Undefined
  end.

(** The events that trigger a workflow, which are the names the runner
    gives to [context.eventName]. The list is the platform's; it is no part
    of this repository. *)
Definition workflowEvents : list string :=
  ["branch_protection_rule"; "check_run"; "check_suite"; "create"; "delete";
   "deployment"; "deployment_status"; "discussion"; "discussion_comment";
   "fork"; "gollum"; "issue_comment"; "issues"; "label"; "merge_group";
   "milestone"; "page_build"; "project"; "project_card"; "project_column";
   "public"; "pull_request"; "pull_request_review";
   "pull_request_review_comment"; "pull_request_target"; "push";
   "registry_package"; "release"; "repository_dispatch"; "schedule";
   "status"; "watch"; "workflow_call"; "workflow_dispatch"; "workflow_run"].

(** The names under which the handler table inherits a built-in whose call
    returns. *)
Definition returningMembers : list string :=
  ["constructor"; "toString"; "toLocaleString"; "valueOf"; "hasOwnProperty";
   "isPrototypeOf"; "propertyIsEnumerable"; "__lookupGetter__";
   "__lookupSetter__"].

(** ** Triggering an analysis and uploading results

    [run] of the trigger action and [triggerPrAnalysis] and
    [uploadInputFile] of its resource module. They are written against
    [@actions/core], [axios], [fs], [form-data] and the helpers of
    [./util], none of which is code at hand: the model records what the
    functions ask of them, in order, and takes their answers from a host. *)

Module Trigger.

(** Truthiness, as [if (v)] and [!v] test it. *)
Definition truthy (v : value) : bool :=
  match v with
  | Undefined | Null | NaN => false
  | Bool b => b
  | Num n => negb (n =? 0)%Z
  | Str s => negb (String.eqb s "")
  | Arr _ | Obj _ | Fun _ => true
  end.

(** A status code inside a template literal: its decimal numeral. *)
Definition numberText (n : Z) : string :=
  NilEmpty.string_of_int (Z.to_int n).

(** What the functions do to the outside, as far as it can be observed. *)
Inductive effect : Type :=
| SetOutput (name text : string)                      (* core.setOutput *)
| SetFailed (message : string)                        (* core.setFailed *)
| BuildError (e : error)                              (* buildError of ./util *)
| GetIDToken (audience : string)                      (* core.getIDToken *)
| Post (url : string) (headers : list (string * value))
| Put (url : string) (form : list (string * string))
      (headers : list (string * value)).

(** The functions register callbacks on the token promise and return: [now]
    is what happens before they return, [later] what the callbacks do once
    the promise has settled. *)
Record trace : Type := { now : list effect; later : list effect }.

Record UploadInputs : Type := { file : string; tool : string }.

Record Host : Type := {
  startedAt : string;                          (* (new Date()).toTimeString() *)
  isGithubEventValid : result value;
  getGithubContext : result value;
  buildTriggerApiUrl : value -> result string;
  buildUploadApiUrl : string -> result string;
  idToken : string -> result string;           (* how the token promise settles *)
  (* how the request settles: axios resolves with the status of a 2xx answer
     and rejects on any other answer and on a failure of the transport *)
  post : string -> list (string * value) -> result Z;
  put : string -> list (string * string) -> list (string * value) -> result Z;
  readFileSync : string -> result string;
  getHeaders : list (string * string) -> value (* form.getHeaders() *)
}.

Definition AUDIENCE : string := "https://app.pixee.ai".

(** The two callbacks on a request: [then], which fails the action on any
    status but 204, and [catch]. *)
Definition settled (response : result Z) : list effect :=
  match response with
  | Ok status =>
      if negb (status =? 204)%Z then
        [SetFailed ("Failed response status: " ++ numberText status)%string]
      else []
  | Throw e => [BuildError e]
  end.

Definition triggerHeaders (token : string) : list (string * value) :=
  [("contentType", Str "application/json");
   ("Authorization", Str ("Bearer " ++ token)%string)].

Definition triggerPrAnalysis (h : Host) (prNumber : value) : trace :=
  {| now := [GetIDToken AUDIENCE];
     later :=
       match idToken h AUDIENCE with
       | Ok token =>
           match buildTriggerApiUrl h prNumber with
           | Ok url =>
               Post url (triggerHeaders token)
               :: settled (post h url (triggerHeaders token))
           | Throw e => [BuildError e]
           end
       | Throw _ => []
       end |}.

(** [{...form.getHeaders(), Authorization: ...}]. *)
Definition uploadHeaders (formHeaders : value) (token : string)
  : list (string * value) :=
  set "Authorization" (Str ("Bearer " ++ token)%string)
    (assign [] (ownEnumerable formHeaders)).

Definition uploadInputFile (h : Host) (inputs : UploadInputs) : result trace :=
  let* fileContent := readFileSync h (file inputs) in
  let form := [("file", fileContent)] in
  Ok {| now := [GetIDToken AUDIENCE];
        later :=
          match idToken h AUDIENCE with
          | Ok token =>
              match buildUploadApiUrl h (tool inputs) with
              | Ok url =>
                  let headers := uploadHeaders (getHeaders h form) token in
                  Put url form headers :: settled (put h url form headers)
              | Throw e => [BuildError e]
              end
          | Throw _ => []
          end |}.

Definition prNumberNotFound : string :=
  "PR number not found. Please provide a valid PR number.".

Definition invalidEvent : string := "Invalid GitHub event".

(** The body of [run] after [start-at] is set: the [try] block, whose
    exceptions go to [buildError]. [prNumber] is no member of a built-in
    prototype, so [getProp] reads it as the destructuring does. *)
Definition attempt (h : Host) : result trace :=
  let* valid := isGithubEventValid h in
  if truthy valid then
    let* context := getGithubContext h in
    let* prNumber := getProp context "prNumber" in
    if truthy prNumber then
      let t := triggerPrAnalysis h prNumber in
      Ok {| now := now t ++ [SetOutput "status" "success"];
            later := later t |}
    else
      Ok {| now := [SetFailed prNumberNotFound; SetFailed invalidEvent];
            later := [] |}
  else
    Ok {| now := [SetFailed invalidEvent]; later := [] |}.

Definition run (h : Host) : trace :=
  match attempt h with
  | Ok t =>
      {| now := SetOutput "start-at" (startedAt h) :: now t;
         later := later t |}
  | Throw e =>
      {| now := [SetOutput "start-at" (startedAt h); BuildError e];
         later := [] |}
  end.

(** The event is valid and the context has a PR number: the case in which
    [run] triggers the analysis. *)
Definition triggers (h : Host) (prNumber : value) : Prop :=
  exists valid context,
    isGithubEventValid h = Ok valid /\ truthy valid = true
    /\ getGithubContext h = Ok context
    /\ getProp context "prNumber" = Ok prNumber
    /\ truthy prNumber = true.

Definition isRequest (e : effect) : bool :=
  match e with
  | Post _ _ | Put _ _ _ => true
  | _ => false
  end.

Definition isFailure (e : effect) : bool :=
  match e with
  | SetFailed _ | BuildError _ => true
  | _ => false
  end.

(** A host for the examples: a valid event on pull request 42, a token, and
    a service that answers 200 where the action expects 204. *)
Definition failingHost : Host :=
  {| startedAt := "10:15:00 GMT+0000 (Coordinated Universal Time)";
     isGithubEventValid := Ok (Bool true);
     getGithubContext := Ok (Obj [("owner", Str "acme"); ("prNumber", Num 42)]);
     buildTriggerApiUrl := fun _ => Ok "https://api.pixee.ai/analysis-input/pr/42";
     buildUploadApiUrl := fun tool =>
       Ok ("https://api.pixee.ai/analysis-input/" ++ tool)%string;
     idToken := fun _ => Ok "oidc";
     post := fun _ _ => Ok 200%Z;
     put := fun _ _ _ => Ok 200%Z;
     readFileSync := fun path =>
       if String.eqb path "results.sarif" then Ok "{}"
       else Throw (Raised "ENOENT: no such file or directory");
     getHeaders := fun _ =>
       Obj [("content-type", Str "multipart/form-data; boundary=x");
            ("Authorization", Str "Basic stale")] |}.

(** The same host with another context and another validity answer. *)
Definition withEvent (h : Host) (valid context : result value) : Host :=
  {| startedAt := startedAt h;
     isGithubEventValid := valid;
     getGithubContext := context;
     buildTriggerApiUrl := buildTriggerApiUrl h;
     buildUploadApiUrl := buildUploadApiUrl h;
     idToken := idToken h;
     post := post h;
     put := put h;
     readFileSync := readFileSync h;
     getHeaders := getHeaders h |}.

(** The same host when no ID token can be had. *)
Definition hostWithoutToken : Host :=
  {| startedAt := startedAt failingHost;
     isGithubEventValid := isGithubEventValid failingHost;
     getGithubContext := getGithubContext failingHost;
     buildTriggerApiUrl := buildTriggerApiUrl failingHost;
     buildUploadApiUrl := buildUploadApiUrl failingHost;
     idToken := fun _ =>
       Throw (Raised "Unable to get ACTIONS_ID_TOKEN_REQUEST_URL env variable");
     post := post failingHost;
     put := put failingHost;
     readFileSync := readFileSync failingHost;
     getHeaders := getHeaders failingHost |}.

End Trigger.

(** ** Properties *)

(** *** Merging *)

Lemma lookup_set_same k v props : lookup k (set k v props) = Some v.
Proof.
  induction props as [|[k' v'] rest IH]; simpl.
  - now rewrite String.eqb_refl.
  - destruct (String.eqb k k') eqn:E; simpl; rewrite E; auto.
Qed.

Lemma lookup_set_other k k' v props :
  k <> k' -> lookup k (set k' v props) = lookup k props.
Proof.
  intros Hne. apply String.eqb_neq in Hne.
  induction props as [|[k0 v0] rest IH]; simpl.
  - now rewrite Hne.
  - destruct (String.eqb k' k0) eqn:E; simpl.
    + apply String.eqb_eq in E. subst k0. now rewrite Hne.
    + now rewrite IH.
Qed.

(** Copying properties leaves every key that the source does not have as
    it was in the target. *)
Lemma lookup_assign_absent k source : forall target,
  lookup k source = None ->
  lookup k (assign target source) = lookup k target.
Proof.
  unfold assign.
  induction source as [|[k' v'] rest IH]; intros target Habs; simpl in *.
  - reflexivity.
  - destruct (String.eqb k k') eqn:E; [discriminate|].
    rewrite IH by assumption. apply lookup_set_other.
    now apply String.eqb_neq.
Qed.

(** *** The dispatch *)

Lemma supported_false name :
  supported name = false ->
  String.eqb name "pull_request" = false
  /\ String.eqb name "check_run" = false
  /\ String.eqb name "workflow_dispatch" = false.
Proof.
  unfold supported. intros H.
  apply orb_false_iff in H. destruct H as [H H3].
  apply orb_false_iff in H. destruct H as [H1 H2]. auto.
Qed.

(** Running the normaliser on an event that is not a manual dispatch is
    running the table entry and merging. *)
Lemma getGitHubContext_handler w ctx calls :
  String.eqb (Context.eventName ctx) "workflow_dispatch" = false ->
  getGitHubContext w ctx calls =
  match callEventHandler (Context.eventName ctx) ctx with
  | Ok commitInfo =>
      (Ok (spread2 (RepositoryInfo.toValue (getRepositoryInfo ctx)) commitInfo),
       calls)
  | Throw e => (Throw e, calls)
  end.
Proof.
  intros H. unfold getGitHubContext, bind, sync, ret. rewrite H. simpl.
  destruct (callEventHandler (Context.eventName ctx) ctx); reflexivity.
Qed.

Lemma getGitHubContext_dispatch w ctx calls :
  Context.eventName ctx = "workflow_dispatch" ->
  getGitHubContext w ctx calls =
  match getWorkflowDispatchContext w ctx calls with
  | (Ok commitInfo, calls') =>
      (Ok (spread2 (RepositoryInfo.toValue (getRepositoryInfo ctx)) commitInfo),
       calls')
  | (Throw e, calls') => (Throw e, calls')
  end.
Proof.
  intros H. unfold getGitHubContext, bind, ret. rewrite H. simpl.
  destruct (getWorkflowDispatchContext w ctx calls) as [[c|e] calls'];
    reflexivity.
Qed.

Lemma callEventHandler_pull_request ctx :
  Context.eventName ctx = "pull_request" ->
  callEventHandler (Context.eventName ctx) ctx = getPullRequestContext ctx.
Proof. intros H. rewrite H. reflexivity. Qed.

Lemma callEventHandler_check_run ctx :
  Context.eventName ctx = "check_run" ->
  callEventHandler (Context.eventName ctx) ctx = getCheckRunContext ctx.
Proof. intros H. rewrite H. reflexivity. Qed.

Lemma spread_pull_request_info ctx prNumber sha :
  spread2 (RepositoryInfo.toValue (getRepositoryInfo ctx))
          (Obj [("prNumber", prNumber); ("sha", sha)])
  = merged ctx [("prNumber", prNumber); ("sha", sha)].
Proof. reflexivity. Qed.

Lemma spread_sha_only ctx sha :
  spread2 (RepositoryInfo.toValue (getRepositoryInfo ctx)) (Obj [("sha", sha)])
  = merged ctx [("sha", sha)].
Proof. reflexivity. Qed.

Lemma find_In {A} k (a : A) table :
  ObjectPrototype.find k table = Some a -> In (k, a) table.
Proof.
  induction table as [|[k' a'] t IH]; simpl; [discriminate|].
  destruct (String.eqb k k') eqn:E.
  - apply String.eqb_eq in E. subst k'. intros [= ->]. now left.
  - intros H. right. now apply IH.
Qed.

(** C1. On every event kind other than pull_request, check_run and
    workflow_dispatch the normaliser throws a TypeError: the handler table
    has no entry to call, nothing is returned, no call is made, and there
    is no default. An event kind is the name of a platform event; the
    statement holds for every name whatsoever except nine names of the
    language itself (constructor, toString, toLocaleString, valueOf,
    hasOwnProperty, isPrototypeOf, propertyIsEnumerable, __lookupGetter__,
    __lookupSetter__), none of which names an event. *)
Theorem unregistered_event_throws (w : World) (ctx : Context.t)
    (calls : list PullsGetParams) :
  supported (Context.eventName ctx) = false ->
  ~ In (Context.eventName ctx) returningMembers ->
  getGitHubContext w ctx calls = (Throw TypeError, calls).
Proof.
  intros Hsup Hkind.
  destruct (supported_false _ Hsup) as (Hpr & Hcr & Hwd).
  rewrite getGitHubContext_handler by assumption.
  unfold callEventHandler. simpl ObjectPrototype.find at 1.
  rewrite Hcr, Hpr.
  destruct (ObjectPrototype.named (Context.eventName ctx)) as [m|] eqn:Hm;
    [|reflexivity].
  apply find_In in Hm. simpl in Hm.
  repeat (destruct Hm as [Hm|Hm];
          [injection Hm as Hname <-;
           first [reflexivity
                 | exfalso; apply Hkind; rewrite <- Hname; simpl; tauto]
          |]).
  contradiction.
Qed.

Lemma unregistered_event_throws_workflow_events :
  Forall (fun name =>
            supported name = true
            \/ getGitHubContext world
                 (event name [] Undefined "refs/heads/main") []
               = (Throw TypeError, []))
    workflowEvents.
Proof.
  unfold workflowEvents.
  repeat (apply Forall_cons;
          [first [left; reflexivity
                 | right; apply unregistered_event_throws;
                   [reflexivity | simpl; intuition discriminate]]
          |]).
  apply Forall_nil.
Defined.

(** *** The pull_request handler *)

Lemma getProp_Ok_not_nullish v k x : getProp v k = Ok x -> nullish v = false.
Proof. destruct v; simpl; intros H; try reflexivity; discriminate. Qed.

Lemma getProp_nullish v k : nullish v = true -> getProp v k = Throw TypeError.
Proof. destruct v; simpl; intros H; try discriminate; reflexivity. Qed.

(** C3. On a pull_request event whose payload carries a pull_request
    object with a head, the normaliser resolves to the ambient owner and
    repo merged with prNumber, the issue number of the event, and sha, the
    sha of that head; no call is made. With issue number 42 and head sha
    abc123 this is prNumber 42 and sha abc123. *)
Theorem pull_request_context (w : World) (ctx : Context.t)
    (calls : list PullsGetParams) (pr head sha : value) :
  Context.eventName ctx = "pull_request" ->
  lookup "pull_request" (Context.payload ctx) = Some pr ->
  getProp pr "head" = Ok head ->
  getProp head "sha" = Ok sha ->
  getGitHubContext w ctx calls =
  (Ok (merged ctx [("prNumber", Context.issue_number ctx); ("sha", sha)]),
   calls).
Proof.
  intros Hev Hpr Hhead Hsha.
  rewrite getGitHubContext_handler by (rewrite Hev; reflexivity).
  rewrite callEventHandler_pull_request by assumption.
  unfold getPullRequestContext. simpl. rewrite Hpr. simpl.
  unfold optChain. rewrite (getProp_Ok_not_nullish _ _ _ Hhead).
  rewrite Hhead. simpl. rewrite Hsha. simpl.
  now rewrite spread_pull_request_info.
Qed.

Lemma pull_request_context_42 :
  getGitHubContext world pullRequest42 [] =
  (Ok (Obj [("owner", Str "acme"); ("repo", Str "widgets");
            ("prNumber", Num 42); ("sha", Str "abc123")]), []).
Proof.
  apply (pull_request_context world pullRequest42 []
           (Obj [("number", Num 42);
                 ("head", Obj [("ref", Str "fix"); ("sha", Str "abc123")])])
           (Obj [("ref", Str "fix"); ("sha", Str "abc123")])
           (Str "abc123")); reflexivity.
Defined.

(** C4, as amended. On a pull_request event whose payload lacks the
    pull_request field (it is missing or null) the normaliser does not
    throw and sha is undefined, with no validation and no default. When the
    pull_request object is there and its head is missing or null, the read
    of sha on that head throws a TypeError. *)
Theorem pull_request_partial_payload (w : World) (ctx : Context.t)
    (calls : list PullsGetParams) :
  Context.eventName ctx = "pull_request" ->
  (nullish (pullRequestOf ctx) = true ->
   getGitHubContext w ctx calls =
   (Ok (merged ctx [("prNumber", Context.issue_number ctx);
                    ("sha", Undefined)]), calls))
  /\ (forall head,
        getProp (pullRequestOf ctx) "head" = Ok head ->
        nullish head = true ->
        getGitHubContext w ctx calls = (Throw TypeError, calls)).
Proof.
  intros Hev.
  rewrite getGitHubContext_handler by (rewrite Hev; reflexivity).
  rewrite callEventHandler_pull_request by assumption.
  unfold getPullRequestContext, pullRequestOf. simpl.
  destruct (lookup "pull_request" (Context.payload ctx)) as [pr|]; simpl;
    unfold optChain; split.
  - intros Hn. rewrite Hn. reflexivity.
  - intros head Hhead Hn.
    rewrite (getProp_Ok_not_nullish _ _ _ Hhead), Hhead. simpl.
    now rewrite (getProp_nullish _ _ Hn).
  - reflexivity.
  - discriminate.
Qed.

Lemma pull_request_partial_payload_examples :
  getGitHubContext world pullRequestNoField [] =
  (Ok (Obj [("owner", Str "acme"); ("repo", Str "widgets");
            ("prNumber", Num 42); ("sha", Undefined)]), [])
  /\ getGitHubContext world pullRequestNoHead [] = (Throw TypeError, []).
Proof.
  split.
  - apply (pull_request_partial_payload world pullRequestNoField []);
      reflexivity.
  - apply (proj2 (pull_request_partial_payload world pullRequestNoHead []
                    eq_refl) Undefined); reflexivity.
Defined.

(** C4, as stated, fails on its second case: a pull_request object without
    a head makes the normaliser throw instead of yielding an undefined
    sha. *)
Lemma missing_head_throws :
  Context.eventName pullRequestNoHead = "pull_request"
  /\ lookup "pull_request" (Context.payload pullRequestNoHead)
     = Some (Obj [("number", Num 42)])
  /\ getProp (Obj [("number", Num 42)]) "head" = Ok Undefined
  /\ getGitHubContext world pullRequestNoHead [] = (Throw TypeError, []).
Proof. repeat split. Qed.

(** *** The check_run handler *)

(** C5. On a check_run event whose payload carries a check_run object, sha
    is its head_sha, and prNumber is the number of the first entry of its
    pull_requests array; when that array is empty, missing or null,
    prNumber is undefined and nothing is thrown. With pull_requests
    [{number: 7}, {number: 8}] and head_sha def456 this is prNumber 7 and
    sha def456; with pull_requests [] prNumber is undefined. *)
Theorem check_run_context (w : World) (ctx : Context.t)
    (calls : list PullsGetParams) (check_run : list (string * value))
    (sha : value) :
  Context.eventName ctx = "check_run" ->
  lookup "check_run" (Context.payload ctx) = Some (Obj check_run) ->
  getProp (Obj check_run) "head_sha" = Ok sha ->
  (forall first others number,
      lookup "pull_requests" check_run = Some (Arr (first :: others)) ->
      getProp first "number" = Ok number ->
      getGitHubContext w ctx calls =
      (Ok (merged ctx [("prNumber", number); ("sha", sha)]), calls))
  /\ (lookup "pull_requests" check_run = Some (Arr [])
      \/ lookup "pull_requests" check_run = None
      \/ lookup "pull_requests" check_run = Some Null ->
      getGitHubContext w ctx calls =
      (Ok (merged ctx [("prNumber", Undefined); ("sha", sha)]), calls)).
Proof.
  intros Hev Hcr Hsha.
  rewrite getGitHubContext_handler by (rewrite Hev; reflexivity).
  rewrite callEventHandler_check_run by assumption.
  unfold getCheckRunContext.
  assert (Hread : getProp (Obj (Context.payload ctx)) "check_run"
                  = Ok (Obj check_run)) by (simpl; now rewrite Hcr).
  rewrite Hread. cbn [bindR]. rewrite Hsha.
  split.
  - intros first others number Hprs Hnum.
    assert (Hfirst : getProp (Arr (first :: others)) "0" = Ok first)
      by reflexivity.
    unfold getProp at 1. rewrite Hprs. cbn [bindR].
    unfold optChain at 1. cbn [nullish]. rewrite Hfirst. cbn [bindR].
    unfold optChain. rewrite (getProp_Ok_not_nullish _ _ _ Hnum), Hnum.
    reflexivity.
  - intros [Hprs | [Hprs | Hprs]]; simpl; rewrite Hprs; reflexivity.
Qed.

Lemma check_run_context_examples :
  getGitHubContext world
    (checkRun [Obj [("number", Num 7)]; Obj [("number", Num 8)]]) [] =
  (Ok (Obj [("owner", Str "acme"); ("repo", Str "widgets");
            ("prNumber", Num 7); ("sha", Str "def456")]), [])
  /\ getGitHubContext world (checkRun []) [] =
     (Ok (Obj [("owner", Str "acme"); ("repo", Str "widgets");
               ("prNumber", Undefined); ("sha", Str "def456")]), []).
Proof.
  split.
  - apply (proj1 (check_run_context world
                     (checkRun [Obj [("number", Num 7)]; Obj [("number", Num 8)]])
                     [] _ (Str "def456") eq_refl eq_refl eq_refl)
             (Obj [("number", Num 7)]) [Obj [("number", Num 8)]] (Num 7));
      reflexivity.
  - apply (proj2 (check_run_context world (checkRun []) [] _ (Str "def456")
                    eq_refl eq_refl eq_refl)).
    left. reflexivity.
Defined.

(** C10. On a check_run event whose payload has no check_run field the
    handler reads pull_requests on undefined, so the normaliser throws a
    TypeError; nothing is returned. *)
Theorem check_run_missing_throws (w : World) (ctx : Context.t)
    (calls : list PullsGetParams) :
  Context.eventName ctx = "check_run" ->
  lookup "check_run" (Context.payload ctx) = None ->
  getGitHubContext w ctx calls = (Throw TypeError, calls).
Proof.
  intros Hev Hcr.
  rewrite getGitHubContext_handler by (rewrite Hev; reflexivity).
  rewrite callEventHandler_check_run by assumption.
  unfold getCheckRunContext. simpl. rewrite Hcr. reflexivity.
Qed.

Lemma check_run_missing_throws_example :
  getGitHubContext world
    (event "check_run" [("action", Str "completed")] Undefined
       "refs/heads/main") []
  = (Throw TypeError, []).
Proof.
  apply check_run_missing_throws; reflexivity.
Defined.

(** *** Manual dispatch *)

Lemma allowed_iff b :
  includes allowedBranches b = true <-> b = "main" \/ b = "develop".
Proof.
  unfold includes, allowedBranches. simpl.
  rewrite !orb_true_iff, !String.eqb_eq. intuition discriminate.
Qed.

Lemma not_allowed b :
  b <> "main" -> b <> "develop" -> includes allowedBranches b = false.
Proof.
  intros Hm Hd. destruct (includes allowedBranches b) eqn:E; [|reflexivity].
  apply allowed_iff in E. tauto.
Qed.

(** C6. On a workflow_dispatch event whose branch name is neither main nor
    develop, the normaliser resolves to the ambient owner and repo merged
    with sha, the ambient commit sha of the context; the result has no
    prNumber property, and no call to the platform API is made. *)
Theorem dispatch_other_branch (w : World) (ctx : Context.t)
    (calls : list PullsGetParams) :
  Context.eventName ctx = "workflow_dispatch" ->
  branchName ctx <> "main" ->
  branchName ctx <> "develop" ->
  getGitHubContext w ctx calls =
  (Ok (merged ctx [("sha", Str (Context.sha ctx))]), calls)
  /\ field "prNumber" (merged ctx [("sha", Str (Context.sha ctx))]) = None.
Proof.
  intros Hev Hm Hd. split; [|reflexivity].
  rewrite getGitHubContext_dispatch by assumption.
  unfold getWorkflowDispatchContext.
  rewrite (not_allowed _ Hm Hd). unfold ret.
  now rewrite spread_sha_only.
Qed.

Lemma dispatch_other_branch_feature_x :
  getGitHubContext world
    (event "workflow_dispatch" [] Undefined "refs/heads/feature-x") [] =
  (Ok (Obj [("owner", Str "acme"); ("repo", Str "widgets");
            ("sha", Str "0a1b2c")]), []).
Proof.
  apply (dispatch_other_branch world
           (event "workflow_dispatch" [] Undefined "refs/heads/feature-x") []);
    [reflexivity | discriminate | discriminate].
Defined.

(** C7. On a workflow_dispatch event whose branch name is main or develop,
    with a client for the token input, the normaliser calls the
    get-pull-request API exactly once, with owner, repo and the pull_number
    that parseInt yields on the pr-number input; when the API answers, the
    normaliser resolves to the ambient owner and repo merged with sha, the
    head.sha of the answer, and the result has no prNumber property. *)
Theorem dispatch_listed_branch (w : World) (ctx : Context.t)
    (calls : list PullsGetParams) (client : Octokit) :
  Context.eventName ctx = "workflow_dispatch" ->
  branchName ctx = "main" \/ branchName ctx = "develop" ->
  getOctokit w (getInput w "token") = Ok client ->
  snd (getGitHubContext w ctx calls) = calls ++ [pullsGetArgument w ctx]
  /\ (forall response data head sha,
        pulls_get client (pullsGetArgument w ctx) = Ok response ->
        getProp response "data" = Ok data ->
        getProp data "head" = Ok head ->
        getProp head "sha" = Ok sha ->
        fst (getGitHubContext w ctx calls) = Ok (merged ctx [("sha", sha)])
        /\ field "prNumber" (merged ctx [("sha", sha)]) = None).
Proof.
  intros Hev Hbranch Hclient.
  apply allowed_iff in Hbranch.
  rewrite getGitHubContext_dispatch by assumption.
  unfold getWorkflowDispatchContext. rewrite Hbranch.
  unfold bind, sync, request. rewrite Hclient.
  change {| pg_owner := RepositoryInfo.owner (getRepositoryInfo ctx);
            pg_repo := RepositoryInfo.repo (getRepositoryInfo ctx);
            pull_number := parseInt w (getInput w "pr-number") |}
    with (pullsGetArgument w ctx).
  split.
  - destruct (pulls_get client (pullsGetArgument w ctx)) as [response|e];
      [|reflexivity].
    destruct (getProp response "data") as [data|e]; [|reflexivity].
    cbn [bindR].
    destruct (getProp data "head") as [head|e]; [|reflexivity].
    cbn [bindR].
    destruct (getProp head "sha") as [sha|e]; reflexivity.
  - intros response data head sha Hresp Hdata Hhead Hsha.
    rewrite Hresp, Hdata. cbn [bindR]. rewrite Hhead. cbn [bindR].
    rewrite Hsha. cbn [bindR fst]. split; [|reflexivity].
    now rewrite spread_sha_only.
Qed.

Lemma dispatch_listed_branch_main :
  snd (getGitHubContext world
         (event "workflow_dispatch" [] Undefined "refs/heads/main") [])
  = [{| pg_owner := "acme"; pg_repo := "widgets"; pull_number := Num 17 |}]
  /\ fst (getGitHubContext world
            (event "workflow_dispatch" [] Undefined "refs/heads/main") [])
     = Ok (Obj [("owner", Str "acme"); ("repo", Str "widgets");
                ("sha", Str "9f8e7d")]).
Proof.
  pose proof (dispatch_listed_branch world
                (event "workflow_dispatch" [] Undefined "refs/heads/main") []
                {| pulls_get := fun params =>
                     match pull_number params with
                     | Num 17 => Ok pullRequest17
                     | _ => Throw (Raised "Not Found")
                     end |}
                eq_refl (or_introl eq_refl) eq_refl) as [Hcalls Hsha].
  split.
  - exact Hcalls.
  - exact (proj1 (Hsha pullRequest17
                    (Obj [("number", Num 17);
                          ("head", Obj [("ref", Str "fix");
                                        ("sha", Str "9f8e7d")])])
                    (Obj [("ref", Str "fix"); ("sha", Str "9f8e7d")])
                    (Str "9f8e7d") eq_refl eq_refl eq_refl eq_refl)).
Defined.

(** *** The branch name *)

Lemma substring_append p : forall b,
  substring (String.length p) (p ++ b)%string = b.
Proof.
  induction p as [|c p IH]; intros b; simpl.
  - reflexivity.
  - apply IH.
Qed.






(** *** The merged record *)

Lemma getPullRequestContext_Ok ctx v :
  getPullRequestContext ctx = Ok v ->
  exists sha, v = Obj [("prNumber", Context.issue_number ctx); ("sha", sha)].
Proof.
  unfold getPullRequestContext. cbn [bindR getProp].
  destruct (optChain _ _) as [sha|e]; cbn [bindR]; intros H;
    [|discriminate].
  exists sha. congruence.
Qed.

Lemma getCheckRunContext_Ok ctx v :
  getCheckRunContext ctx = Ok v ->
  exists prNumber sha, v = Obj [("prNumber", prNumber); ("sha", sha)].
Proof.
  unfold getCheckRunContext. cbn [bindR getProp].
  destruct (getProp _ "pull_requests") as [prs|e]; cbn [bindR];
    [|discriminate].
  destruct (optChain prs _) as [prNumber|e]; cbn [bindR]; [|discriminate].
  destruct (getProp _ "head_sha") as [sha|e]; cbn [bindR]; [|discriminate].
  intros H. exists prNumber, sha. congruence.
Qed.

Lemma getWorkflowDispatchContext_Ok w ctx calls v calls' :
  getWorkflowDispatchContext w ctx calls = (Ok v, calls') ->
  exists sha, v = Obj [("sha", sha)].
Proof.
  unfold getWorkflowDispatchContext.
  destruct (includes allowedBranches (branchName ctx)).
  - unfold bind, sync, request.
    destruct (getOctokit w _) as [client|e]; [|discriminate].
    destruct (pulls_get client _) as [response|e]; [|discriminate].
    destruct (getProp response "data") as [data|e]; cbn [bindR];
      [|discriminate].
    destruct (getProp data "head") as [head|e]; cbn [bindR]; [|discriminate].
    destruct (getProp head "sha") as [sha|e]; cbn [bindR]; [|discriminate].
    intros H. exists sha. congruence.
  - unfold ret. intros H. eexists. injection H as <- _. reflexivity.
Qed.

(** On a supported event, what is merged with the repository fields is a
    PullRequestInfo, with prNumber exactly when the event is no manual
    dispatch. *)
Lemma resolved_commitInfo w ctx calls r calls' :
  supported (Context.eventName ctx) = true ->
  getGitHubContext w ctx calls = (Ok r, calls') ->
  exists commitInfo,
    r = spread2 (RepositoryInfo.toValue (getRepositoryInfo ctx)) commitInfo
    /\ PullRequestInfo commitInfo
    /\ (Context.eventName ctx = "pull_request" ->
        field "prNumber" commitInfo = Some (Context.issue_number ctx))
    /\ (Context.eventName ctx = "check_run" ->
        exists prNumber, field "prNumber" commitInfo = Some prNumber)
    /\ (Context.eventName ctx = "workflow_dispatch" ->
        field "prNumber" commitInfo = None).
Proof.
  unfold supported. intros Hsup Hrun.
  apply orb_true_iff in Hsup. destruct Hsup as [Hsup|Hwd].
  - apply orb_true_iff in Hsup. destruct Hsup as [Hpr|Hcr].
    + apply String.eqb_eq in Hpr.
      rewrite getGitHubContext_handler in Hrun by (rewrite Hpr; reflexivity).
      rewrite callEventHandler_pull_request in Hrun by assumption.
      destruct (getPullRequestContext ctx) as [v|e] eqn:E; [|discriminate].
      destruct (getPullRequestContext_Ok _ _ E) as [sha ->].
      exists (Obj [("prNumber", Context.issue_number ctx); ("sha", sha)]).
      split; [congruence|]. split; [constructor|].
      rewrite Hpr. repeat split; try discriminate.
    + apply String.eqb_eq in Hcr.
      rewrite getGitHubContext_handler in Hrun by (rewrite Hcr; reflexivity).
      rewrite callEventHandler_check_run in Hrun by assumption.
      destruct (getCheckRunContext ctx) as [v|e] eqn:E; [|discriminate].
      destruct (getCheckRunContext_Ok _ _ E) as (prNumber & sha & ->).
      exists (Obj [("prNumber", prNumber); ("sha", sha)]).
      split; [congruence|]. split; [constructor|].
      rewrite Hcr. repeat split; try discriminate.
      intros _. now exists prNumber.
  - apply String.eqb_eq in Hwd.
    rewrite getGitHubContext_dispatch in Hrun by assumption.
    destruct (getWorkflowDispatchContext w ctx calls) as [[v|e] calls0] eqn:E;
      [|discriminate].
    destruct (getWorkflowDispatchContext_Ok _ _ _ _ _ E) as [sha ->].
    exists (Obj [("sha", sha)]).
    split; [congruence|]. split; [constructor|].
    rewrite Hwd. repeat split; try discriminate.
Qed.

(** A property the second operand of a spread does not have is the one of
    the first operand. *)
Lemma spread_keeps k a b :
  field k b = None ->
  field k (spread2 a b) = lookup k (assign [] (ownEnumerable a)).
Proof.
  unfold field, spread2. cbn [ownEnumerable]. intros Habs.
  now apply lookup_assign_absent.
Qed.

Lemma PullRequestInfo_fields commitInfo :
  PullRequestInfo commitInfo ->
  field "owner" commitInfo = None /\ field "repo" commitInfo = None
  /\ exists sha, field "sha" commitInfo = Some sha.
Proof. intros [prNumber sha|sha]; repeat split; now exists sha. Qed.

(** C9. On every supported event the result is the spread of the
    repository fields followed by the event-derived fields; the latter hold
    neither owner nor repo, so owner and repo of the result are the ambient
    ones: writing the event-derived fields last overwrites nothing. *)
Theorem repository_fields_kept (w : World) (ctx : Context.t)
    (calls calls' : list PullsGetParams) (r : value) :
  supported (Context.eventName ctx) = true ->
  getGitHubContext w ctx calls = (Ok r, calls') ->
  exists commitInfo,
    r = spread2 (RepositoryInfo.toValue (getRepositoryInfo ctx)) commitInfo
    /\ field "owner" commitInfo = None
    /\ field "repo" commitInfo = None
    /\ field "owner" r = Some (Str (RepositoryInfo.owner (Context.repo ctx)))
    /\ field "repo" r = Some (Str (RepositoryInfo.repo (Context.repo ctx))).
Proof.
  intros Hsup Hrun.
  destruct (resolved_commitInfo _ _ _ _ _ Hsup Hrun)
    as (commitInfo & -> & Hinfo & _).
  destruct (PullRequestInfo_fields _ Hinfo) as (Howner & Hrepo & _).
  exists commitInfo. split; [reflexivity|].
  split; [assumption|]. split; [assumption|].
  rewrite (spread_keeps "owner") by assumption.
  rewrite (spread_keeps "repo") by assumption.
  split; reflexivity.
Qed.

Lemma repository_fields_kept_check_run :
  exists r,
    getGitHubContext world
      (checkRun [Obj [("number", Num 7)]; Obj [("number", Num 8)]]) []
    = (Ok r, [])
    /\ field "owner" r = Some (Str "acme")
    /\ field "repo" r = Some (Str "widgets").
Proof.
  eexists. split; [reflexivity|].
  destruct (repository_fields_kept world
              (checkRun [Obj [("number", Num 7)]; Obj [("number", Num 8)]])
              [] [] _ eq_refl eq_refl)
    as (commitInfo & _ & _ & _ & Howner & Hrepo).
  split; [exact Howner | exact Hrepo].
Defined.

(** ** Further properties of the normaliser *)

(** *** Calls to the platform API *)

(** The manual dispatch on a listed branch, step by step. *)
Lemma getWorkflowDispatchContext_listed w ctx calls :
  includes allowedBranches (branchName ctx) = true ->
  getWorkflowDispatchContext w ctx calls =
  match getOctokit w (getInput w "token") with
  | Throw e => (Throw e, calls)
  | Ok client =>
      (bindR (pulls_get client (pullsGetArgument w ctx)) (fun response =>
         let* data := getProp response "data" in
         let* head := getProp data "head" in
         let* sha := getProp head "sha" in
         Ok (Obj [("sha", sha)])),
       calls ++ [pullsGetArgument w ctx])
  end.
Proof.
  intros Hlisted. unfold getWorkflowDispatchContext. rewrite Hlisted.
  unfold bind, sync, request.
  destruct (getOctokit w (getInput w "token")) as [client|e]; [|reflexivity].
  change {| pg_owner := RepositoryInfo.owner (getRepositoryInfo ctx);
            pg_repo := RepositoryInfo.repo (getRepositoryInfo ctx);
            pull_number := parseInt w (getInput w "pr-number") |}
    with (pullsGetArgument w ctx).
  destruct (pulls_get client (pullsGetArgument w ctx)); reflexivity.
Qed.

Lemma getWorkflowDispatchContext_unlisted w ctx calls :
  includes allowedBranches (branchName ctx) = false ->
  getWorkflowDispatchContext w ctx calls =
  (Ok (Obj [("sha", Str (Context.sha ctx))]), calls).
Proof.
  intros Hunlisted. unfold getWorkflowDispatchContext. now rewrite Hunlisted.
Qed.

(** The calls recorded after a run, whatever its outcome. *)
Lemma calls_after w ctx calls :
  snd (getGitHubContext w ctx calls) =
  if String.eqb (Context.eventName ctx) "workflow_dispatch"
     && includes allowedBranches (branchName ctx)
  then match getOctokit w (getInput w "token") with
       | Ok _ => calls ++ [pullsGetArgument w ctx]
       | Throw _ => calls
       end
  else calls.
Proof.
  destruct (String.eqb (Context.eventName ctx) "workflow_dispatch") eqn:Hev.
  - apply String.eqb_eq in Hev.
    rewrite getGitHubContext_dispatch by assumption.
    destruct (includes allowedBranches (branchName ctx)) eqn:Hlisted.
    + rewrite getWorkflowDispatchContext_listed by assumption. cbn [andb].
      destruct (getOctokit w (getInput w "token")) as [client|e];
        [|reflexivity].
      destruct (bindR _ _); reflexivity.
    + now rewrite getWorkflowDispatchContext_unlisted by assumption.
  - rewrite getGitHubContext_handler by assumption.
    destruct (callEventHandler _ _); reflexivity.
Qed.

(** X1. The platform API is left alone unless the event is a
    workflow_dispatch on main or develop: on any other event name, one
    without a handler included, and on any other branch, the recorded calls
    are what they were, whether the normaliser returns or throws. *)
Theorem no_call_outside_listed_dispatch (w : World) (ctx : Context.t)
    (calls : list PullsGetParams) :
  Context.eventName ctx <> "workflow_dispatch"
  \/ includes allowedBranches (branchName ctx) = false ->
  snd (getGitHubContext w ctx calls) = calls.
Proof.
  intros H. rewrite calls_after.
  destruct H as [Hev|Hbranch].
  - apply String.eqb_neq in Hev. now rewrite Hev.
  - rewrite Hbranch. now rewrite andb_false_r.
Qed.

Lemma no_call_outside_listed_dispatch_examples :
  snd (getGitHubContext world pullRequestNoHead []) = []
  /\ snd (getGitHubContext world
            (event "workflow_dispatch" [] Undefined "refs/heads/feature-x") [])
     = [].
Proof.
  split.
  - apply no_call_outside_listed_dispatch. left. discriminate.
  - apply no_call_outside_listed_dispatch. right. reflexivity.
Defined.

(** X2. One run makes at most one call, and that call has the ambient
    owner and repo and the parsed pr-number input as its argument: there is
    no retry and no second lookup, on any event and any outcome. *)
Theorem at_most_one_call (w : World) (ctx : Context.t)
    (calls : list PullsGetParams) :
  snd (getGitHubContext w ctx calls) = calls
  \/ snd (getGitHubContext w ctx calls) = calls ++ [pullsGetArgument w ctx].
Proof.
  rewrite calls_after.
  destruct (_ && _); [|now left].
  destruct (getOctokit w (getInput w "token")); [now right | now left].
Qed.

(** X3. On a manual dispatch on a listed branch, when no client can be
    built from the token input, the normaliser rejects with the error of
    the client and has called nothing. *)
Theorem client_failure_rejects (w : World) (ctx : Context.t)
    (calls : list PullsGetParams) (e : error) :
  Context.eventName ctx = "workflow_dispatch" ->
  branchName ctx = "main" \/ branchName ctx = "develop" ->
  getOctokit w (getInput w "token") = Throw e ->
  getGitHubContext w ctx calls = (Throw e, calls).
Proof.
  intros Hev Hbranch Hclient. apply allowed_iff in Hbranch.
  rewrite getGitHubContext_dispatch by assumption.
  rewrite getWorkflowDispatchContext_listed by assumption.
  now rewrite Hclient.
Qed.

Lemma client_failure_rejects_no_token :
  getGitHubContext worldWithoutToken
    (event "workflow_dispatch" [] Undefined "refs/heads/main") []
  = (Throw (Raised "Parameter token or opts.auth is required"), []).
Proof.
  apply client_failure_rejects; [reflexivity | now left | reflexivity].
Defined.

(** X4. On a manual dispatch on a listed branch, when the API call fails,
    the normaliser rejects with that very error after the one call: the
    error is neither retried nor replaced by the ambient sha. *)
Theorem api_failure_rejects (w : World) (ctx : Context.t)
    (calls : list PullsGetParams) (client : Octokit) (e : error) :
  Context.eventName ctx = "workflow_dispatch" ->
  branchName ctx = "main" \/ branchName ctx = "develop" ->
  getOctokit w (getInput w "token") = Ok client ->
  pulls_get client (pullsGetArgument w ctx) = Throw e ->
  getGitHubContext w ctx calls = (Throw e, calls ++ [pullsGetArgument w ctx]).
Proof.
  intros Hev Hbranch Hclient Hfail. apply allowed_iff in Hbranch.
  rewrite getGitHubContext_dispatch by assumption.
  rewrite getWorkflowDispatchContext_listed by assumption.
  now rewrite Hclient, Hfail.
Qed.

Lemma api_failure_rejects_not_found :
  getGitHubContext worldWithUnknownNumber
    (event "workflow_dispatch" [] Undefined "refs/heads/develop") []
  = (Throw (Raised "Not Found"),
     [{| pg_owner := "acme"; pg_repo := "widgets"; pull_number := Num 404 |}]).
Proof.
  apply (api_failure_rejects worldWithUnknownNumber
           (event "workflow_dispatch" [] Undefined "refs/heads/develop") []
           {| pulls_get := fun params =>
                match pull_number params with
                | Num 17 => Ok pullRequest17
                | _ => Throw (Raised "Not Found")
                end |});
    [reflexivity | now right | reflexivity | reflexivity].
Defined.

(** X5. On a manual dispatch on a listed branch, an answer of the API
    without data, or whose data has no head, makes the normaliser reject
    with a TypeError after the one call: the answer is read without
    optional chaining and nothing stands in for the missing sha. *)
Theorem malformed_answer_rejects (w : World) (ctx : Context.t)
    (calls : list PullsGetParams) (client : Octokit) (response data : value) :
  Context.eventName ctx = "workflow_dispatch" ->
  branchName ctx = "main" \/ branchName ctx = "develop" ->
  getOctokit w (getInput w "token") = Ok client ->
  pulls_get client (pullsGetArgument w ctx) = Ok response ->
  getProp response "data" = Ok data ->
  nullish data = true
  \/ (exists head, getProp data "head" = Ok head /\ nullish head = true) ->
  getGitHubContext w ctx calls =
  (Throw TypeError, calls ++ [pullsGetArgument w ctx]).
Proof.
  intros Hev Hbranch Hclient Hanswer Hdata Hbad. apply allowed_iff in Hbranch.
  rewrite getGitHubContext_dispatch by assumption.
  rewrite getWorkflowDispatchContext_listed by assumption.
  rewrite Hclient, Hanswer. cbn [bindR]. rewrite Hdata. cbn [bindR].
  destruct Hbad as [Hnull | (head & Hhead & Hnull)].
  - now rewrite (getProp_nullish _ _ Hnull).
  - rewrite Hhead. cbn [bindR]. now rewrite (getProp_nullish _ _ Hnull).
Qed.

Lemma malformed_answer_rejects_examples :
  getGitHubContext worldWithEmptyAnswer
    (event "workflow_dispatch" [] Undefined "refs/heads/main") []
  = (Throw TypeError,
     [{| pg_owner := "acme"; pg_repo := "widgets"; pull_number := Num 17 |}]).
Proof.
  apply (malformed_answer_rejects worldWithEmptyAnswer
           (event "workflow_dispatch" [] Undefined "refs/heads/main") []
           {| pulls_get := fun _ => Ok (Obj [("data", Obj [])]) |}
           (Obj [("data", Obj [])]) (Obj []));
    [reflexivity | now left | reflexivity | reflexivity | reflexivity |].
  right. exists Undefined. split; reflexivity.
Defined.

(** *** When the handlers throw *)

Lemma getProp_total v k :
  nullish v = false -> exists x, getProp v k = Ok x.
Proof. destruct v; simpl; intros H; try discriminate; eexists; reflexivity. Qed.

Lemma optChain_number first :
  exists n, optChain first (fun pr => getProp pr "number") = Ok n.
Proof.
  unfold optChain. destruct (nullish first) eqn:E.
  - now exists Undefined.
  - apply getProp_total. assumption.
Qed.

(** X6. On a pull_request event the normaliser throws in one case only:
    the payload has a pull_request value other than undefined and null
    whose head is undefined or null. In every other case it returns. *)
Theorem pull_request_throws_iff (w : World) (ctx : Context.t)
    (calls : list PullsGetParams) :
  Context.eventName ctx = "pull_request" ->
  ((exists e, fst (getGitHubContext w ctx calls) = Throw e)
   <-> exists head,
         getProp (pullRequestOf ctx) "head" = Ok head /\ nullish head = true).
Proof.
  intros Hev.
  rewrite getGitHubContext_handler by (rewrite Hev; reflexivity).
  rewrite callEventHandler_pull_request by assumption.
  unfold getPullRequestContext, pullRequestOf. cbn [getProp bindR].
  destruct (lookup "pull_request" (Context.payload ctx)) as [pr|].
  - unfold optChain. destruct (nullish pr) eqn:Hpr.
    + cbn [bindR fst]. split.
      * intros [e He]. discriminate.
      * intros (head & Hhead & _).
        rewrite (getProp_nullish _ _ Hpr) in Hhead. discriminate.
    + destruct (getProp_total pr "head" Hpr) as [head Hhead]. rewrite Hhead.
      cbn [bindR]. destruct (nullish head) eqn:Hnull.
      * rewrite (getProp_nullish _ _ Hnull). cbn [bindR fst]. split.
        -- intros _. now exists head.
        -- intros _. now exists TypeError.
      * destruct (getProp_total head "sha" Hnull) as [sha Hsha].
        rewrite Hsha. cbn [bindR fst]. split.
        -- intros [e He]. discriminate.
        -- intros (head' & Hhead' & Hnull'). congruence.
  - cbn. split.
    + intros [e He]. discriminate.
    + intros (head & Hhead & _). discriminate.
Qed.

Lemma pull_request_throws_iff_example :
  exists e, fst (getGitHubContext world pullRequestNoHead []) = Throw e.
Proof.
  apply (proj2 (pull_request_throws_iff world pullRequestNoHead [] eq_refl)).
  exists Undefined. split; reflexivity.
Defined.

(** X7. On a check_run event the normaliser throws in one case only: the
    check_run field of the payload is missing or null. Whatever the
    check_run value holds otherwise (no pull_requests, pull_requests that
    is no array, a first entry that is null, no head_sha), it returns. *)
Theorem check_run_throws_iff (w : World) (ctx : Context.t)
    (calls : list PullsGetParams) :
  Context.eventName ctx = "check_run" ->
  ((exists e, fst (getGitHubContext w ctx calls) = Throw e)
   <-> nullish (checkRunOf ctx) = true).
Proof.
  intros Hev.
  rewrite getGitHubContext_handler by (rewrite Hev; reflexivity).
  rewrite callEventHandler_check_run by assumption.
  unfold getCheckRunContext, checkRunOf. cbn [getProp bindR].
  set (cr := match lookup "check_run" (Context.payload ctx) with
             | Some x => x
             | None => Undefined
             end).
  destruct (nullish cr) eqn:Hcr.
  - rewrite (getProp_nullish _ _ Hcr). cbn [bindR fst]. split; [reflexivity|].
    intros _. now exists TypeError.
  - destruct (getProp_total cr "pull_requests" Hcr) as [prs Hprs].
    destruct (getProp_total cr "head_sha" Hcr) as [sha Hsha].
    rewrite Hprs. cbn [bindR].
    assert (Hnum : exists n,
               optChain prs (fun prs0 =>
                 let* first := getProp prs0 "0" in
                 optChain first (fun pr => getProp pr "number")) = Ok n).
    { unfold optChain at 1. destruct (nullish prs) eqn:Hn.
      - now exists Undefined.
      - destruct (getProp_total prs "0" Hn) as [first Hfirst].
        rewrite Hfirst. cbn [bindR]. apply optChain_number. }
    destruct Hnum as [n Hn]. rewrite Hn. cbn [bindR]. rewrite Hsha.
    cbn [bindR fst]. split; [|discriminate].
    intros [e He]. discriminate.
Qed.

Lemma check_run_throws_iff_null :
  exists e,
    fst (getGitHubContext world
           (event "check_run" [("check_run", Null)] Undefined
              "refs/heads/main") []) = Throw e.
Proof.
  apply (proj2 (check_run_throws_iff world
                  (event "check_run" [("check_run", Null)] Undefined
                     "refs/heads/main") [] eq_refl)).
  reflexivity.
Defined.

(** *** What a run does not depend on *)

(** X8. A manual dispatch reads neither the payload nor the issue number
    nor any other property of the context: two workflow_dispatch contexts
    with the same ref, sha and repository give the same outcome and the
    same calls. *)
Theorem dispatch_ignores_payload (w : World) (ctx ctx' : Context.t)
    (calls : list PullsGetParams) :
  Context.eventName ctx = "workflow_dispatch" ->
  Context.eventName ctx' = "workflow_dispatch" ->
  Context.ref ctx = Context.ref ctx' ->
  Context.sha ctx = Context.sha ctx' ->
  Context.repo ctx = Context.repo ctx' ->
  getGitHubContext w ctx calls = getGitHubContext w ctx' calls.
Proof.
  intros Hev Hev' Href Hsha Hrepo.
  rewrite !getGitHubContext_dispatch by assumption.
  assert (Hbranch : branchName ctx = branchName ctx')
    by (unfold branchName; now rewrite Href).
  assert (Hinfo : getRepositoryInfo ctx = getRepositoryInfo ctx')
    by (unfold getRepositoryInfo; now rewrite Hrepo).
  assert (Harg : pullsGetArgument w ctx = pullsGetArgument w ctx')
    by (unfold pullsGetArgument; now rewrite Hrepo).
  destruct (includes allowedBranches (branchName ctx')) eqn:Hlisted.
  - rewrite !getWorkflowDispatchContext_listed by congruence.
    now rewrite Harg, Hinfo.
  - rewrite !getWorkflowDispatchContext_unlisted by congruence.
    now rewrite Hsha, Hinfo.
Qed.

Lemma dispatch_ignores_payload_example :
  getGitHubContext world
    (event "workflow_dispatch" [] Undefined "refs/heads/main") []
  = getGitHubContext world
      (event "workflow_dispatch"
         [("inputs", Obj [("pr-number", Str "99")])] (Num 99)
         "refs/heads/main") [].
Proof.
  apply dispatch_ignores_payload; reflexivity.
Defined.

(** X9. Every event other than a manual dispatch is resolved from the
    context alone: the inputs, parseInt and the client play no part, so the
    outcome is the same in any two worlds. *)
Theorem handlers_ignore_world (w w' : World) (ctx : Context.t)
    (calls : list PullsGetParams) :
  Context.eventName ctx <> "workflow_dispatch" ->
  getGitHubContext w ctx calls = getGitHubContext w' ctx calls.
Proof.
  intros Hev. apply String.eqb_neq in Hev.
  now rewrite !getGitHubContext_handler by assumption.
Qed.

Lemma handlers_ignore_world_example :
  getGitHubContext world pullRequest42 []
  = getGitHubContext worldWithoutToken pullRequest42 [].
Proof.
  apply handlers_ignore_world. discriminate.
Defined.

(** *** Event names without a handler *)

(** X10. For an event name other than pull_request, check_run and
    workflow_dispatch, the normaliser returns a value instead of throwing
    exactly when the name is one of constructor, toString, toLocaleString,
    valueOf, hasOwnProperty, isPrototypeOf, propertyIsEnumerable,
    __lookupGetter__ and __lookupSetter__; on every other name, the
    inherited __proto__, __defineGetter__ and __defineSetter__ included, it
    throws. *)
Theorem unsupported_returns_iff (w : World) (ctx : Context.t)
    (calls : list PullsGetParams) :
  supported (Context.eventName ctx) = false ->
  ((exists r, fst (getGitHubContext w ctx calls) = Ok r)
   <-> In (Context.eventName ctx) returningMembers).
Proof.
  intros Hsup.
  destruct (supported_false _ Hsup) as (Hpr & Hcr & Hwd).
  rewrite getGitHubContext_handler by assumption.
  unfold callEventHandler. simpl ObjectPrototype.find at 1.
  rewrite Hcr, Hpr.
  destruct (ObjectPrototype.named (Context.eventName ctx)) as [m|] eqn:Hm.
  - apply find_In in Hm. simpl in Hm.
    repeat (destruct Hm as [Hm|Hm];
            [injection Hm as <- <-; cbn; split;
             [intros [r Hr]; try discriminate; tauto
             |intros Hin; try (eexists; reflexivity);
              repeat (destruct Hin as [Hin|Hin]; [discriminate|]);
              contradiction]
            |]).
    contradiction.
  - cbn. split; [intros [r Hr]; discriminate|].
    intros Hin. exfalso. simpl in Hin.
    repeat (destruct Hin as [Hin|Hin];
            [rewrite <- Hin in Hm; discriminate|]).
    contradiction.
Qed.

Lemma unsupported_returns_iff_valueOf :
  exists r,
    fst (getGitHubContext world
           (event "valueOf" [] Undefined "refs/heads/main") []) = Ok r.
Proof.
  apply (proj2 (unsupported_returns_iff world
                  (event "valueOf" [] Undefined "refs/heads/main") []
                  eq_refl)).
  simpl. tauto.
Defined.

(** *** Which refs reach the API *)

Lemma substring_split n : forall s b,
  substring n s = b -> b <> "" ->
  exists p, String.length p = n /\ s = (p ++ b)%string.
Proof.
  induction n as [|n IH]; intros s b Hsub Hne.
  - exists "". split; [reflexivity|]. destruct s; simpl in Hsub; now subst.
  - destruct s as [|c s]; simpl in Hsub; [congruence|].
    destruct (IH s b Hsub Hne) as (p & Hlen & Hs).
    exists (String c p). split; simpl; congruence.
Qed.

(** X11. The manual dispatch takes the API path exactly for the refs that
    end in main or develop after eleven leading code units, whatever those
    are: the refs of the branches main and develop, and equally any other
    ref of that shape, such as a tag ref. *)
Theorem listed_branch_iff (ctx : Context.t) :
  includes allowedBranches (branchName ctx) = true
  <-> exists p,
        String.length p = 11
        /\ (Context.ref ctx = (p ++ "main")%string
            \/ Context.ref ctx = (p ++ "develop")%string).
Proof.
  rewrite allowed_iff. unfold branchName.
  change (String.length "refs/heads/") with 11. split.
  - intros [H|H];
      (destruct (substring_split 11 (Context.ref ctx) _ H) as (p & Hlen & Hs);
       [discriminate|]);
      exists p; auto.
  - intros (p & Hlen & [H|H]); rewrite H, <- Hlen, substring_append; auto.
Qed.

Lemma listed_branch_iff_examples :
  includes allowedBranches
    (branchName (event "workflow_dispatch" [] Undefined "refs/heads/develop"))
  = true
  /\ includes allowedBranches
       (branchName (event "workflow_dispatch" [] Undefined "refs/tags/xmain"))
     = true.
Proof.
  split.
  - apply (proj2 (listed_branch_iff
                    (event "workflow_dispatch" [] Undefined
                       "refs/heads/develop"))).
    exists "refs/heads/". split; [reflexivity | now right].
  - apply (proj2 (listed_branch_iff
                    (event "workflow_dispatch" [] Undefined
                       "refs/tags/xmain"))).
    exists "refs/tags/x". split; [reflexivity | now left].
Defined.

(** *** What the fields hold *)

Lemma getPullRequestContext_value ctx v :
  getPullRequestContext ctx = Ok v ->
  v = Obj [("prNumber", Context.issue_number ctx);
           ("sha", dig (Obj (Context.payload ctx))
                     ["pull_request"; "head"; "sha"])].
Proof.
  unfold getPullRequestContext. cbn [dig getProp bindR].
  set (pr := match lookup "pull_request" (Context.payload ctx) with
             | Some x => x
             | None => Undefined
             end).
  unfold optChain. destruct (nullish pr) eqn:Hpr.
  - rewrite (getProp_nullish _ _ Hpr). cbn [bindR]. congruence.
  - destruct (getProp_total pr "head" Hpr) as [head Hhead]. rewrite Hhead.
    cbn [bindR]. destruct (getProp head "sha") as [sha|e]; cbn [bindR];
      [congruence | discriminate].
Qed.

Lemma getCheckRunContext_value ctx v :
  getCheckRunContext ctx = Ok v ->
  v = Obj [("prNumber", dig (Obj (Context.payload ctx))
                          ["check_run"; "pull_requests"; "0"; "number"]);
           ("sha", dig (Obj (Context.payload ctx)) ["check_run"; "head_sha"])].
Proof.
  unfold getCheckRunContext. cbn [dig getProp bindR].
  set (cr := match lookup "check_run" (Context.payload ctx) with
             | Some x => x
             | None => Undefined
             end).
  destruct (getProp cr "pull_requests") as [prs|e]; cbn [bindR];
    [|discriminate].
  unfold optChain at 1. destruct (nullish prs) eqn:Hprs.
  - rewrite (getProp_nullish _ _ Hprs). cbn [bindR].
    destruct (getProp cr "head_sha") as [sha|e]; cbn [bindR];
      [congruence | discriminate].
  - destruct (getProp_total prs "0" Hprs) as [first Hfirst]. rewrite Hfirst.
    cbn [bindR]. unfold optChain. destruct (nullish first) eqn:Hfirst0.
    + rewrite (getProp_nullish _ _ Hfirst0). cbn [bindR].
      destruct (getProp cr "head_sha") as [sha|e]; cbn [bindR];
        [congruence | discriminate].
    + destruct (getProp_total first "number" Hfirst0) as [n Hn]. rewrite Hn.
      cbn [bindR].
      destruct (getProp cr "head_sha") as [sha|e]; cbn [bindR];
        [congruence | discriminate].
Qed.

Lemma field_merged_sha ctx prNumber sha :
  field "sha" (spread2 (RepositoryInfo.toValue (getRepositoryInfo ctx))
                 (Obj [("prNumber", prNumber); ("sha", sha)])) = Some sha
  /\ field "prNumber"
       (spread2 (RepositoryInfo.toValue (getRepositoryInfo ctx))
          (Obj [("prNumber", prNumber); ("sha", sha)])) = Some prNumber.
Proof. split; reflexivity. Qed.

(** C2, as amended. Every value getGitHubContext resolves to on a
    supported event has a sha property, and neither sha nor prNumber is
    validated: each is the value found in the event, [undefined] where the
    event lacks it. On pull_request, sha is payload.pull_request.head.sha
    and prNumber the issue number of the context; on check_run, sha is
    payload.check_run.head_sha and prNumber is
    payload.check_run.pull_requests[0].number; on workflow_dispatch there
    is no prNumber, and sha is the ambient sha of the context off the
    allow-list and data.head.sha of the API answer on it. *)
Theorem sha_present_unvalidated (w : World) (ctx : Context.t)
    (calls calls' : list PullsGetParams) (r : value) :
  supported (Context.eventName ctx) = true ->
  getGitHubContext w ctx calls = (Ok r, calls') ->
  (exists sha, field "sha" r = Some sha)
  /\ (Context.eventName ctx = "pull_request" ->
      field "sha" r
      = Some (dig (Obj (Context.payload ctx)) ["pull_request"; "head"; "sha"])
      /\ field "prNumber" r = Some (Context.issue_number ctx))
  /\ (Context.eventName ctx = "check_run" ->
      field "sha" r
      = Some (dig (Obj (Context.payload ctx)) ["check_run"; "head_sha"])
      /\ field "prNumber" r
         = Some (dig (Obj (Context.payload ctx))
                   ["check_run"; "pull_requests"; "0"; "number"]))
  /\ (Context.eventName ctx = "workflow_dispatch" ->
      field "prNumber" r = None
      /\ (includes allowedBranches (branchName ctx) = false ->
          field "sha" r = Some (Str (Context.sha ctx)))
      /\ (includes allowedBranches (branchName ctx) = true ->
          exists client response,
            getOctokit w (getInput w "token") = Ok client
            /\ pulls_get client (pullsGetArgument w ctx) = Ok response
            /\ field "sha" r = Some (dig response ["data"; "head"; "sha"]))).
Proof.
  unfold supported. intros Hsup Hrun.
  apply orb_true_iff in Hsup. destruct Hsup as [Hsup|Hwd].
  - apply orb_true_iff in Hsup. destruct Hsup as [Hpr|Hcr].
    + apply String.eqb_eq in Hpr.
      rewrite getGitHubContext_handler in Hrun by (rewrite Hpr; reflexivity).
      rewrite callEventHandler_pull_request in Hrun by assumption.
      destruct (getPullRequestContext ctx) as [v|e] eqn:E; [|discriminate].
      rewrite (getPullRequestContext_value _ _ E) in Hrun.
      injection Hrun as <- _.
      split; [eexists; apply field_merged_sha|].
      split; [intros _; apply field_merged_sha|].
      rewrite Hpr. split; discriminate.
    + apply String.eqb_eq in Hcr.
      rewrite getGitHubContext_handler in Hrun by (rewrite Hcr; reflexivity).
      rewrite callEventHandler_check_run in Hrun by assumption.
      destruct (getCheckRunContext ctx) as [v|e] eqn:E; [|discriminate].
      rewrite (getCheckRunContext_value _ _ E) in Hrun.
      injection Hrun as <- _.
      split; [eexists; apply field_merged_sha|].
      rewrite Hcr. split; [discriminate|].
      split; [intros _; apply field_merged_sha | discriminate].
  - apply String.eqb_eq in Hwd.
    rewrite getGitHubContext_dispatch in Hrun by assumption.
    rewrite Hwd.
    destruct (includes allowedBranches (branchName ctx)) eqn:Hlisted.
    + rewrite getWorkflowDispatchContext_listed in Hrun by assumption.
      destruct (getOctokit w (getInput w "token")) as [client|e];
        [|discriminate].
      destruct (pulls_get client (pullsGetArgument w ctx)) as [response|e]
        eqn:Hanswer; cbn [bindR] in Hrun; [|discriminate].
      destruct (getProp response "data") as [data|e] eqn:Hdata;
        cbn [bindR] in Hrun; [|discriminate].
      destruct (getProp data "head") as [head|e] eqn:Hhead;
        cbn [bindR] in Hrun; [|discriminate].
      destruct (getProp head "sha") as [sha|e] eqn:Hsha;
        cbn [bindR] in Hrun; [|discriminate].
      injection Hrun as <- _.
      split; [now exists sha|].
      split; [discriminate|]. split; [discriminate|].
      intros _. split; [reflexivity|]. split; [discriminate|].
      intros _. exists client, response.
      split; [reflexivity|]. split; [exact Hanswer|].
      cbn [dig]. now rewrite Hdata, Hhead, Hsha.
    + rewrite getWorkflowDispatchContext_unlisted in Hrun by assumption.
      injection Hrun as <- _.
      split; [eexists; reflexivity|].
      split; [discriminate|]. split; [discriminate|].
      intros _. split; [reflexivity|]. split; [reflexivity | discriminate].
Qed.

Lemma sha_present_unvalidated_examples :
  (exists r,
      getGitHubContext world pullRequest42 [] = (Ok r, [])
      /\ field "sha" r = Some (Str "abc123")
      /\ field "prNumber" r = Some (Num 42))
  /\ (exists r,
        getGitHubContext world
          (checkRun [Obj [("number", Num 7)]; Obj [("number", Num 8)]]) []
        = (Ok r, [])
        /\ field "sha" r = Some (Str "def456")
        /\ field "prNumber" r = Some (Num 7)).
Proof.
  split; eexists; (split; [reflexivity|]).
  - exact (proj1 (proj2 (sha_present_unvalidated world pullRequest42 [] [] _
                           eq_refl eq_refl)) eq_refl).
  - exact (proj1 (proj2 (proj2 (sha_present_unvalidated world
                                  (checkRun [Obj [("number", Num 7)];
                                             Obj [("number", Num 8)]])
                                  [] [] _ eq_refl eq_refl))) eq_refl).
Defined.

(** C2, as stated, fails in both halves. A pull_request event whose
    payload has no pull_request field is a supported event on which the
    normaliser returns, and the sha it returns is undefined, which is no
    non-empty string. A check_run event whose first pull request carries
    the number 0 returns with prNumber 0, which is present and is no
    positive integer. *)
Lemma fields_not_validated :
  (supported (Context.eventName pullRequestNoField) = true
   /\ exists r,
        getGitHubContext world pullRequestNoField [] = (Ok r, [])
        /\ field "sha" r = Some Undefined
        /\ isNonEmptyString Undefined = false)
  /\ (supported (Context.eventName (checkRun [Obj [("number", Num 0)]])) = true
      /\ exists r,
           getGitHubContext world (checkRun [Obj [("number", Num 0)]]) []
           = (Ok r, [])
           /\ field "prNumber" r = Some (Num 0)
           /\ isPositiveInteger (Num 0) = false).
Proof.
  split; (split; [reflexivity|]); eexists; repeat split.
Qed.

(** ** Properties of the trigger action *)

Import Trigger.

Lemma attempt_triggered h prNumber :
  triggers h prNumber ->
  attempt h =
  Ok {| now := [GetIDToken AUDIENCE; SetOutput "status" "success"];
        later := later (triggerPrAnalysis h prNumber) |}.
Proof.
  intros (valid & context & Hvalid & Htrue & Hctx & Hnum & Hpr).
  unfold attempt. rewrite Hvalid. cbn [bindR]. rewrite Htrue, Hctx.
  cbn [bindR]. rewrite Hnum. cbn [bindR]. now rewrite Hpr.
Qed.

(** The synchronous part of [run] when no analysis is triggered: the
    failures reported or the exception handed to [buildError], and nothing
    else. *)
Lemma attempt_not_triggered h :
  (forall prNumber, ~ triggers h prNumber) ->
  (exists e, attempt h = Throw e)
  \/ attempt h = Ok {| now := [SetFailed invalidEvent]; later := [] |}
  \/ attempt h =
     Ok {| now := [SetFailed prNumberNotFound; SetFailed invalidEvent];
           later := [] |}.
Proof.
  intros Hnot. unfold attempt.
  destruct (isGithubEventValid h) as [valid|e] eqn:Hvalid; cbn [bindR];
    [|left; now exists e].
  destruct (truthy valid) eqn:Htrue; [|right; now left].
  destruct (getGithubContext h) as [context|e] eqn:Hctx; cbn [bindR];
    [|left; now exists e].
  destruct (getProp context "prNumber") as [prNumber|e] eqn:Hnum; cbn [bindR];
    [|left; now exists e].
  destruct (truthy prNumber) eqn:Hpr; [|right; now right].
  exfalso. apply (Hnot prNumber). now exists valid, context.
Qed.

Lemma triggers_dec h :
  (exists prNumber, triggers h prNumber)
  \/ (forall prNumber, ~ triggers h prNumber).
Proof.
  unfold triggers.
  destruct (isGithubEventValid h) as [valid|e] eqn:Hvalid.
  - destruct (truthy valid) eqn:Htrue.
    + destruct (getGithubContext h) as [context|e] eqn:Hctx.
      * destruct (getProp context "prNumber") as [prNumber|e] eqn:Hnum.
        -- destruct (truthy prNumber) eqn:Hpr.
           ++ left. exists prNumber, valid, context. auto.
           ++ right. intros n (v & c & Hv & _ & Hc & Hn & Ht). congruence.
        -- right. intros n (v & c & Hv & _ & Hc & Hn & Ht). congruence.
      * right. intros n (v & c & Hv & _ & Hc & _). congruence.
    + right. intros n (v & c & Hv & Ht & _). congruence.
  - right. intros n (v & c & Hv & _). congruence.
Qed.

(** X12. [run] reports status success exactly when it triggers the
    analysis, that is, when the event is valid and the context has a
    truthy PR number, and exactly then it asks for an ID token; in that
    case it reports no failure before it returns. *)
Theorem success_iff_triggered (h : Host) :
  (In (SetOutput "status" "success") (now (run h))
   <-> exists prNumber, triggers h prNumber)
  /\ (In (GetIDToken AUDIENCE) (now (run h))
      <-> exists prNumber, triggers h prNumber)
  /\ ((exists prNumber, triggers h prNumber) ->
      forallb (fun e => negb (isFailure e)) (now (run h)) = true).
Proof.
  unfold run.
  destruct (triggers_dec h) as [[prNumber Htr]|Hnot].
  - rewrite (attempt_triggered _ _ Htr). cbn [now].
    repeat split; intros; try (now exists prNumber); simpl; auto.
  - assert (Hno : ~ exists prNumber, triggers h prNumber)
      by (intros [n Hn]; exact (Hnot n Hn)).
    destruct (attempt_not_triggered h Hnot) as [[e He]|[He|He]];
      rewrite He; cbn [now];
      (split; [|split]);
      try (split; [|intros Hex; contradiction]);
      try (intros Hex; contradiction);
      simpl; intros Hin;
      repeat (destruct Hin as [Hin|Hin]; [discriminate|]);
      contradiction.
Qed.

Lemma success_iff_triggered_example :
  In (SetOutput "status" "success") (now (run failingHost))
  /\ forallb (fun e => negb (isFailure e)) (now (run failingHost)) = true.
Proof.
  assert (Htr : exists prNumber, triggers failingHost prNumber).
  { exists (Num 42), (Bool true),
      (Obj [("owner", Str "acme"); ("prNumber", Num 42)]).
    repeat split. }
  split.
  - exact (proj2 (proj1 (success_iff_triggered failingHost)) Htr).
  - exact (proj2 (proj2 (success_iff_triggered failingHost)) Htr).
Defined.

(** X13. On a valid event whose context has no truthy PR number (none, 0,
    an empty string), [run] reports two failures before it returns: that
    the PR number was not found and then, as the first [if] has no [else],
    that the event is invalid. It asks for no token and registers
    nothing. *)
Theorem missing_number_fails_twice (h : Host) (valid context prNumber : value) :
  isGithubEventValid h = Ok valid ->
  truthy valid = true ->
  getGithubContext h = Ok context ->
  getProp context "prNumber" = Ok prNumber ->
  truthy prNumber = false ->
  run h =
  {| now := [SetOutput "start-at" (startedAt h);
             SetFailed prNumberNotFound; SetFailed invalidEvent];
     later := [] |}.
Proof.
  intros Hvalid Htrue Hctx Hnum Hpr.
  unfold run, attempt. rewrite Hvalid. cbn [bindR]. rewrite Htrue, Hctx.
  cbn [bindR]. rewrite Hnum. cbn [bindR]. now rewrite Hpr.
Qed.

Lemma missing_number_fails_twice_example :
  run (withEvent failingHost (Ok (Bool true))
         (Ok (Obj [("owner", Str "acme"); ("prNumber", Num 0)])))
  = {| now := [SetOutput "start-at"
                 "10:15:00 GMT+0000 (Coordinated Universal Time)";
               SetFailed
                 "PR number not found. Please provide a valid PR number.";
               SetFailed "Invalid GitHub event"];
       later := [] |}.
Proof.
  exact (missing_number_fails_twice
           (withEvent failingHost (Ok (Bool true))
              (Ok (Obj [("owner", Str "acme"); ("prNumber", Num 0)])))
           (Bool true)
           (Obj [("owner", Str "acme"); ("prNumber", Num 0)]) (Num 0)
           eq_refl eq_refl eq_refl eq_refl eq_refl).
Defined.

(** X14. An exception of the validity check, of the context helper on a
    valid event, or of reading prNumber from a context that is undefined or
    null, ends up in [buildError]: [run] then reports neither success nor
    failure, asks for no token and registers nothing. *)
Theorem exception_goes_to_buildError (h : Host) (e : error) :
  isGithubEventValid h = Throw e
  \/ (exists valid,
        isGithubEventValid h = Ok valid /\ truthy valid = true
        /\ (getGithubContext h = Throw e
            \/ exists context,
                 getGithubContext h = Ok context /\ nullish context = true
                 /\ e = TypeError)) ->
  run h =
  {| now := [SetOutput "start-at" (startedAt h); BuildError e];
     later := [] |}.
Proof.
  unfold run, attempt.
  intros [Hvalid | (valid & Hvalid & Htrue & [Hctx | (c & Hctx & Hnull & ->)])];
    rewrite Hvalid; cbn [bindR]; [reflexivity| |];
    rewrite Htrue, Hctx; cbn [bindR]; [reflexivity|].
  now rewrite (getProp_nullish _ _ Hnull).
Qed.

Lemma exception_goes_to_buildError_example :
  run (withEvent failingHost (Ok (Bool true)) (Ok Undefined))
  = {| now := [SetOutput "start-at"
                 "10:15:00 GMT+0000 (Coordinated Universal Time)";
               BuildError TypeError];
       later := [] |}.
Proof.
  apply (exception_goes_to_buildError
           (withEvent failingHost (Ok (Bool true)) (Ok Undefined)) TypeError).
  right. exists (Bool true).
  split; [reflexivity|]. split; [reflexivity|]. right.
  exists Undefined. repeat split.
Defined.

(** X15. On an event that is not valid, [run] reports the one failure
    Invalid GitHub event and never consults the context helper: whatever
    the helper would return or throw makes no difference. *)
Theorem invalid_event_skips_context (h : Host) (valid : value)
    (context : result value) :
  truthy valid = false ->
  run (withEvent h (Ok valid) context) =
  {| now := [SetOutput "start-at" (startedAt h); SetFailed invalidEvent];
     later := [] |}.
Proof.
  intros Hfalse. unfold run, attempt. cbn. now rewrite Hfalse.
Qed.

Lemma invalid_event_skips_context_example :
  run (withEvent failingHost (Ok (Bool false)) (Throw TypeError))
  = {| now := [SetOutput "start-at"
                 "10:15:00 GMT+0000 (Coordinated Universal Time)";
               SetFailed "Invalid GitHub event"];
       later := [] |}.
Proof.
  apply (invalid_event_skips_context failingHost (Bool false)). reflexivity.
Defined.

(** X16. Success is reported before the request exists and is not taken
    back: when [run] triggers the analysis and the request resolves with a
    2xx status other than 204 (axios resolves on 2xx answers only), status
    success has been set before [run] returned, and the callback then sends
    the one POST and fails the action with a message that carries the
    status. *)
Theorem success_then_failure (h : Host) (prNumber : value)
    (token url : string) (status : Z) :
  triggers h prNumber ->
  idToken h AUDIENCE = Ok token ->
  buildTriggerApiUrl h prNumber = Ok url ->
  post h url (triggerHeaders token) = Ok status ->
  (200 <= status < 300)%Z ->
  status <> 204%Z ->
  run h =
  {| now := [SetOutput "start-at" (startedAt h); GetIDToken AUDIENCE;
             SetOutput "status" "success"];
     later := [Post url (triggerHeaders token);
               SetFailed ("Failed response status: " ++ numberText status)] |}.
Proof.
  intros Htr Htoken Hurl Hpost _ Hstatus.
  unfold run. rewrite (attempt_triggered _ _ Htr). cbn [now later].
  unfold triggerPrAnalysis. cbn [later]. rewrite Htoken, Hurl, Hpost.
  unfold settled. apply Z.eqb_neq in Hstatus. now rewrite Hstatus.
Qed.

Lemma success_then_failure_example :
  run failingHost =
  {| now := [SetOutput "start-at"
               "10:15:00 GMT+0000 (Coordinated Universal Time)";
             GetIDToken "https://app.pixee.ai";
             SetOutput "status" "success"];
     later := [Post "https://api.pixee.ai/analysis-input/pr/42"
                 [("contentType", Str "application/json");
                  ("Authorization", Str "Bearer oidc")];
               SetFailed "Failed response status: 200"] |}.
Proof.
  apply (success_then_failure failingHost (Num 42) "oidc"
           "https://api.pixee.ai/analysis-input/pr/42" 200%Z);
    [| reflexivity | reflexivity | reflexivity | lia | discriminate].
  exists (Bool true), (Obj [("owner", Str "acme"); ("prNumber", Num 42)]).
  repeat split.
Defined.

(** *** The callbacks *)

Lemma settled_shape response :
  length (filter isRequest (settled response)) = 0
  /\ length (filter isFailure (settled response)) <= 1.
Proof.
  unfold settled. destruct response as [status|e]; simpl; [|lia].
  destruct (status =? 204)%Z; simpl; lia.
Qed.

(** X17. Triggering an analysis and uploading a file each send at most one
    request and report at most one failure, through setFailed or through
    buildError but never both: nothing is retried. *)
Theorem one_request_one_failure (h : Host) (prNumber : value)
    (inputs : UploadInputs) :
  (length (filter isRequest (later (triggerPrAnalysis h prNumber))) <= 1
   /\ length (filter isFailure (later (triggerPrAnalysis h prNumber))) <= 1)
  /\ (forall t,
        uploadInputFile h inputs = Ok t ->
        length (filter isRequest (later t)) <= 1
        /\ length (filter isFailure (later t)) <= 1).
Proof.
  split.
  - unfold triggerPrAnalysis. cbn [later].
    destruct (idToken h AUDIENCE) as [token|e]; [|simpl; lia].
    destruct (buildTriggerApiUrl h prNumber) as [url|e]; [|simpl; lia].
    destruct (settled_shape (post h url (triggerHeaders token))) as [Hr Hf].
    cbn [filter isRequest isFailure length]. lia.
  - intros t. unfold uploadInputFile.
    destruct (readFileSync h (file inputs)) as [content|e]; cbn [bindR];
      [|discriminate].
    intros [= <-]. cbn [later].
    destruct (idToken h AUDIENCE) as [token|e]; [|simpl; lia].
    destruct (buildUploadApiUrl h (tool inputs)) as [url|e]; [|simpl; lia].
    cbv zeta.
    destruct (settled_shape
                (put h url [("file", content)]
                   (uploadHeaders (getHeaders h [("file", content)]) token)))
      as [Hr Hf].
    cbn [filter isRequest isFailure length]. lia.
Qed.

Lemma one_request_one_failure_example :
  length (filter isRequest (later (triggerPrAnalysis failingHost (Num 42))))
  <= 1
  /\ length (filter isFailure (later (triggerPrAnalysis failingHost (Num 42))))
     <= 1.
Proof.
  exact (proj1 (one_request_one_failure failingHost (Num 42)
                  {| file := "results.sarif"; tool := "semgrep" |})).
Defined.

(** X18. When the ID token is refused, the callbacks never run: no request
    is sent and the refusal reaches neither setFailed nor buildError, in
    the trigger as in the upload; [run] has reported status success by
    then all the same. *)
Theorem refused_token_is_silent (h : Host) (e : error) :
  idToken h AUDIENCE = Throw e ->
  (forall prNumber, later (triggerPrAnalysis h prNumber) = [])
  /\ (forall inputs t, uploadInputFile h inputs = Ok t -> later t = [])
  /\ (forall prNumber,
        triggers h prNumber ->
        run h =
        {| now := [SetOutput "start-at" (startedAt h); GetIDToken AUDIENCE;
                   SetOutput "status" "success"];
           later := [] |}).
Proof.
  intros Htoken. split; [|split].
  - intros prNumber. unfold triggerPrAnalysis. cbn [later]. now rewrite Htoken.
  - intros inputs t. unfold uploadInputFile.
    destruct (readFileSync h (file inputs)); cbn [bindR]; [|discriminate].
    intros [= <-]. cbn [later]. now rewrite Htoken.
  - intros prNumber Htr. unfold run. rewrite (attempt_triggered _ _ Htr).
    cbn [now later]. unfold triggerPrAnalysis. cbn [later].
    now rewrite Htoken.
Qed.

Lemma refused_token_is_silent_example :
  later (triggerPrAnalysis hostWithoutToken (Num 42)) = [].
Proof.
  exact (proj1 (refused_token_is_silent hostWithoutToken
                  (Raised "Unable to get ACTIONS_ID_TOKEN_REQUEST_URL env variable")
                  eq_refl) (Num 42)).
Defined.

(** X19. [uploadInputFile] throws exactly when the file cannot be read, and
    with the error of the read; it has asked for no token then. When the
    file is read it returns, having asked for one token. *)
Theorem upload_throws_iff_unreadable (h : Host) (inputs : UploadInputs) :
  (forall e,
      uploadInputFile h inputs = Throw e
      <-> readFileSync h (file inputs) = Throw e)
  /\ (forall t,
        uploadInputFile h inputs = Ok t -> now t = [GetIDToken AUDIENCE]).
Proof.
  unfold uploadInputFile.
  destruct (readFileSync h (file inputs)) as [content|e0]; cbn [bindR]; split.
  - intros e. split; discriminate.
  - intros t [= <-]. reflexivity.
  - intros e. split; intros [= ->]; reflexivity.
  - discriminate.
Qed.

Lemma upload_throws_iff_unreadable_example :
  uploadInputFile failingHost {| file := "missing.sarif"; tool := "semgrep" |}
  = Throw (Raised "ENOENT: no such file or directory").
Proof.
  apply (proj2 (proj1 (upload_throws_iff_unreadable failingHost
                         {| file := "missing.sarif"; tool := "semgrep" |})
                  (Raised "ENOENT: no such file or directory"))).
  reflexivity.
Defined.

Lemma settled_no_request response e : In e (settled response) -> isRequest e = false.
Proof.
  unfold settled. destruct response as [status|err]; simpl.
  - destruct (status =? 204)%Z; simpl; intros H;
      [contradiction | destruct H as [<-|[]]; reflexivity].
  - intros [<-|[]]. reflexivity.
Qed.

(** X20. The request of an upload carries the content of the file as its
    one form field, and its Authorization header is Bearer followed by the
    ID token whatever the headers of the form say, an Authorization header
    of the form included; every other header is the one of the form. *)
Theorem upload_request_headers (h : Host) (inputs : UploadInputs) (t : trace)
    (url : string) (form : list (string * string))
    (headers : list (string * value)) :
  uploadInputFile h inputs = Ok t ->
  In (Put url form headers) (later t) ->
  exists content token,
    readFileSync h (file inputs) = Ok content
    /\ form = [("file", content)]
    /\ idToken h AUDIENCE = Ok token
    /\ buildUploadApiUrl h (tool inputs) = Ok url
    /\ lookup "Authorization" headers = Some (Str ("Bearer " ++ token)%string)
    /\ forall k,
         k <> "Authorization" ->
         lookup k headers
         = lookup k (assign [] (ownEnumerable (getHeaders h form))).
Proof.
  unfold uploadInputFile.
  destruct (readFileSync h (file inputs)) as [content|e]; cbn [bindR];
    [|discriminate].
  intros [= <-]. cbn [later].
  destruct (idToken h AUDIENCE) as [token|e]; [|intros []].
  destruct (buildUploadApiUrl h (tool inputs)) as [url0|e].
  - cbv zeta. intros [Hput | Hin].
    + injection Hput as <- <- <-. exists content, token.
      repeat split; try reflexivity.
      * apply lookup_set_same.
      * intros k Hk. unfold uploadHeaders. now apply lookup_set_other.
    + apply settled_no_request in Hin. discriminate.
  - intros [Hin | []]. discriminate.
Qed.

Lemma upload_request_headers_example :
  exists content token,
    readFileSync failingHost "results.sarif" = Ok content
    /\ [("file", "{}")] = [("file", content)]
    /\ idToken failingHost AUDIENCE = Ok token
    /\ buildUploadApiUrl failingHost "semgrep"
       = Ok "https://api.pixee.ai/analysis-input/semgrep"
    /\ lookup "Authorization"
         [("content-type", Str "multipart/form-data; boundary=x");
          ("Authorization", Str "Bearer oidc")]
       = Some (Str ("Bearer " ++ token)%string)
    /\ forall k,
         k <> "Authorization" ->
         lookup k [("content-type", Str "multipart/form-data; boundary=x");
                   ("Authorization", Str "Bearer oidc")]
         = lookup k
             (assign [] (ownEnumerable
                           (getHeaders failingHost [("file", "{}")]))).
Proof.
  apply (upload_request_headers failingHost
           {| file := "results.sarif"; tool := "semgrep" |}
           {| now := [GetIDToken AUDIENCE];
              later :=
                [Put "https://api.pixee.ai/analysis-input/semgrep"
                   [("file", "{}")]
                   [("content-type", Str "multipart/form-data; boundary=x");
                    ("Authorization", Str "Bearer oidc")];
                 SetFailed "Failed response status: 200"] |}).
  - reflexivity.
  - left. reflexivity.
Defined.
